(** * Plagiarism-Detection-System: the three-tier similarity pipeline

    A shallow embedding of [backend/app.py] and the properties its
    specification states about it.

    Conventions of the embedding.
    - A Python [str] is a [string]; the text is taken to be ASCII (code points
      below 128), which is where [str.lower], [string.punctuation],
      [str.split] and the regular-expression class [\w] are modelled.
    - A Python float is an exact real number of [R]: comparisons are the
      comparisons of the code, arithmetic is without rounding error.
    - A Python [dict] result with optional keys is a record whose optional
      keys have an [option] type.
    - A call that may raise returns an [exc]; [try ... except Exception] is a
      match on it. *)

From Stdlib Require Import Strings.String Strings.Ascii Lists.List Bool.Bool.
From Stdlib Require Import Arith.Arith ZArith.ZArith micromega.Lia.
From Stdlib Require Import Reals.Reals micromega.Lra.
From Stdlib Require Import Sorting.Permutation Sorting.Sorted.
Import ListNotations.

Local Open Scope string_scope.

(** ** Exceptions *)

Inductive exc (A : Type) : Type :=
| Ok (a : A)
| Raise (msg : string).

Arguments Ok {A} a.
Arguments Raise {A} msg.

(** ** Python string builtins used by the program *)

Module PyStr.

Definition code (c : ascii) : nat := nat_of_ascii c.

(** [str.isupper] on one ASCII character: "A".."Z". *)
Definition is_upper (c : ascii) : bool :=
  (65 <=? code c)%nat && (code c <=? 90)%nat.

Definition lower_char (c : ascii) : ascii :=
  if is_upper c then ascii_of_nat (code c + 32) else c.

(** [s.lower()]. *)
Fixpoint lower (s : string) : string :=
  match s with
  | EmptyString => EmptyString
  | String c s' => String (lower_char c) (lower s')
  end.

(** Membership in [string.punctuation], the 32 ASCII punctuation
    characters: 33..47, 58..64, 91..96, 123..126. *)
Definition is_punctuation (c : ascii) : bool :=
  let n := code c in
  ((33 <=? n) && (n <=? 47) || (58 <=? n) && (n <=? 64)
   || (91 <=? n) && (n <=? 96) || (123 <=? n) && (n <=? 126))%nat.

(** [s.translate(str.maketrans('', '', string.punctuation))]: every
    punctuation character is deleted. *)
Fixpoint remove_punctuation (s : string) : string :=
  match s with
  | EmptyString => EmptyString
  | String c s' =>
      if is_punctuation c then remove_punctuation s'
      else String c (remove_punctuation s')
  end.

(** [str.isspace] on one ASCII character: tab, line feed, vertical tab,
    form feed, carriage return, the four separators 28..31 and space. *)
Definition is_space (c : ascii) : bool :=
  let n := code c in
  ((9 <=? n) && (n <=? 13) || (28 <=? n) && (n <=? 32))%nat.

(** The maximal runs of characters that are not separators, in order;
    never an empty string. *)
Section Fields.
Variable sep : ascii -> bool.

Definition starts_field (s : string) : bool :=
  match s with
  | EmptyString => false
  | String c _ => negb (sep c)
  end.

Fixpoint fields (s : string) : list string :=
  match s with
  | EmptyString => []
  | String c s' =>
      if sep c then fields s'
      else if starts_field s' then
             match fields s' with
             | w :: ws => String c w :: ws
             | [] => [String c EmptyString]
             end
           else String c EmptyString :: fields s'
  end.
End Fields.

(** [s.split()]: the text is cut at runs of whitespace. *)
Definition split (s : string) : list string := fields is_space s.

(** [sep.join(l)]. *)
Fixpoint join (sep : string) (l : list string) : string :=
  match l with
  | [] => EmptyString
  | [w] => w
  | w :: ws => w ++ sep ++ join sep ws
  end.

(** [s.lstrip()], [s.rstrip()] and [s.strip()]. *)
Fixpoint lstrip (s : string) : string :=
  match s with
  | EmptyString => EmptyString
  | String c s' => if is_space c then lstrip s' else s
  end.

Fixpoint rstrip (s : string) : string :=
  match s with
  | EmptyString => EmptyString
  | String c s' =>
      match rstrip s' with
      | EmptyString => if is_space c then EmptyString else String c EmptyString
      | r => String c r
      end
  end.

Definition strip (s : string) : string := rstrip (lstrip s).

Definition len (s : string) : nat := String.length s.

(** [not s] *)
Definition is_empty (s : string) : bool :=
  match s with EmptyString => true | _ => false end.

(** Every character of [s] satisfies [p]. *)
Fixpoint all_chars (p : ascii -> bool) (s : string) : bool :=
  match s with
  | EmptyString => true
  | String c s' => p c && all_chars p s'
  end.

(** A field for the separators [sep]: not empty, and without separator. *)
Definition is_field (sep : ascii -> bool) (w : string) : Prop :=
  w <> EmptyString /\ all_chars (fun c => negb (sep c)) w = true.

End PyStr.

(** ** The text normalizer *)

(** [preprocess_text]: lower-case, delete punctuation, collapse whitespace. *)
Definition preprocess_text (text : string) : string :=
  let text := PyStr.lower text in
  let text := PyStr.remove_punctuation text in
  let text := PyStr.join " " (PyStr.split text) in
  text.

(** ** The sentence splitter (NLTK)

    Modelled from the spec: [nltk.tokenize.sent_tokenize] runs the pretrained
    Punkt model, which is not part of the repository.  The spec (4.2) gives
    its contract: a text yields an ordered, finite sequence of sentences,
    none for the empty text.  The tiers take the tokenizer as a parameter; it
    raises when its resource could not be loaded. *)

Definition SentTokenizer : Type := string -> exc (list string).

Module Nltk.

Definition is_terminator (c : ascii) : bool :=
  let n := PyStr.code c in ((n =? 46) || (n =? 33) || (n =? 63))%nat.

(** Modelled from the spec: a stand-in for the Punkt model (missing, see
    above) on plain prose, used where a concrete tokenizer is needed: a
    sentence ends at ".", "!" or "?" followed by whitespace or by the end of
    the text; the whitespace between sentences is dropped; a text without
    any non-blank character has no sentence.  The abbreviation and
    collocation rules of the trained model are left out. *)
Fixpoint scan (cur : string) (s : string) : list string :=
  match s with
  | EmptyString => if PyStr.is_empty cur then [] else [PyStr.rstrip cur]
  | String c s' =>
      if PyStr.is_empty cur && PyStr.is_space c then scan EmptyString s'
      else
        let cur' := cur ++ String c EmptyString in
        if is_terminator c && negb (PyStr.starts_field PyStr.is_space s')
        then cur' :: scan EmptyString s'
        else scan cur' s'
  end.

(** Modelled from the spec: [sent_tokenize] with its resource loaded, on
    plain prose. *)
Definition plain_sent_tokenize : SentTokenizer :=
  fun text => Ok (scan EmptyString text).

(** Modelled from the spec: [sent_tokenize] in a process whose Punkt
    resource could not be loaded; every call raises [LookupError]. *)
Definition missing_sent_tokenize : SentTokenizer :=
  fun _ => Raise "Resource punkt not found.".

End Nltk.

(** ** The vectorizer and the cosine similarity (scikit-learn)

    Modelled from the spec: [TfidfVectorizer()] and
    [sklearn.metrics.pairwise.cosine_similarity] are not part of the
    repository.  The spec (4.3 and glossary) gives their contract: a
    term-frequency / inverse-document-frequency vector space fitted on exactly
    the two documents, the vocabulary being the union of their tokens, one
    vector per document; the cosine similarity is the normalized dot product;
    a fit without any token fails.  The formulas below are those of the
    library's documentation for the default parameters
    ([lowercase=True], [token_pattern=r"(?u)\b\w\w+\b"], [norm="l2"],
    [use_idf=True], [smooth_idf=True], [sublinear_tf=False]). *)

Module Sklearn.

Local Open Scope R_scope.

(** Modelled from the spec: the character class [\w] of the token pattern,
    on ASCII: digits, letters and underscore. *)
Definition is_word_char (c : ascii) : bool :=
  let n := PyStr.code c in
  ((48 <=? n) && (n <=? 57) || (65 <=? n) && (n <=? 90)
   || (97 <=? n) && (n <=? 122) || (n =? 95))%nat.

(** Modelled from the spec: the default analyzer of the vectorizer, which
    lower-cases the document and keeps the matches of the token pattern, the
    maximal runs of two or more word characters. *)
Definition tokenize (doc : string) : list string :=
  filter (fun w => (2 <=? PyStr.len w)%nat)
         (PyStr.fields (fun c => negb (is_word_char c)) (PyStr.lower doc)).

(** Modelled from the spec: the ordering of the feature names of the
    vectorizer, by insertion. *)
Fixpoint insert_sorted (t : string) (l : list string) : list string :=
  match l with
  | [] => [t]
  | u :: l' => if String.leb t u then t :: l else u :: insert_sorted t l'
  end.

Definition sorted (l : list string) : list string :=
  fold_right insert_sorted [] l.

(** Modelled from the spec: the vocabulary of the vectorizer, the distinct
    tokens of all documents in sorted order. *)
Definition vocabulary (docs : list (list string)) : list string :=
  sorted (nodup string_dec (concat docs)).

(** Modelled from the spec: the term frequency of the vectorizer, the number
    of occurrences of [t] in the document. *)
Definition tf (t : string) (doc : list string) : nat :=
  count_occ string_dec doc t.

(** Modelled from the spec: the document frequency of the vectorizer, the
    number of documents that contain [t]. *)
Definition df (t : string) (docs : list (list string)) : nat :=
  length (filter (fun d => existsb (String.eqb t) d) docs).

(** Modelled from the spec: the inverse document frequency of the
    vectorizer with [smooth_idf=True], idf(t) = ln((1 + n) / (1 + df(t))) + 1. *)
Definition idf (n : nat) (d : nat) : R :=
  ln ((1 + INR n) / (1 + INR d)) + 1.

(** Modelled from the spec: the dot product and the Euclidean norm of rows
    of the matrix. *)
Definition dot (u v : list R) : R :=
  fold_right Rplus 0 (map (fun p => fst p * snd p) (combine u v)).

Definition norm (v : list R) : R := sqrt (dot v v).

(** Modelled from the spec: [normalize(X, norm="l2")] of the library on one
    row; a row of norm zero is left as it is. *)
Definition normalize (v : list R) : list R :=
  if Req_dec_T (norm v) 0 then v else map (fun x => x / norm v) v.

(** Modelled from the spec: the weight the vectorizer gives to term [t] in
    the document [d] of the corpus [toks], tf(t, d) * idf(t). *)
Definition tfidf (toks : list (list string)) (d : list string) (t : string) : R :=
  INR (tf t d) * idf (length toks) (df t toks).

(** Modelled from the spec: the message of the [ValueError] the vectorizer
    raises on a fit without any token. *)
Definition empty_vocabulary : string :=
  "empty vocabulary; perhaps the documents only contain stop words".

(** Modelled from the spec: [TfidfVectorizer().fit_transform(docs)], one
    l2-normalized row of tf-idf weights per document; [ValueError] when no
    document has a token. *)
Definition fit_transform (docs : list string) : exc (list (list R)) :=
  let toks := map tokenize docs in
  match vocabulary toks with
  | [] => Raise empty_vocabulary
  | vocab =>
      Ok (map (fun d => normalize (map (tfidf toks d) vocab)) toks)
  end.

(** Modelled from the spec: [cosine_similarity(X, Y)[0][0]] of the library
    for one row [x] and one row [y], the dot product of the two rows after
    normalization.  The value is the exact real cosine; the doubles of the
    library can differ from it in their last digits, so that a row against
    itself may score just below or just above 1. *)
Definition cosine_similarity (x y : list R) : R :=
  dot (normalize x) (normalize y).

End Sklearn.

(** ** Numeric builtins *)

Local Open Scope R_scope.

(** The integer nearest to [y], ties going to the even one. *)
Definition round_half_even (y : R) : Z :=
  let f := Int_part y in
  let r := y - IZR f in
  if Rlt_dec r (1 / 2) then f
  else if Rlt_dec (1 / 2) r then (f + 1)%Z
  else if Z.even f then f else (f + 1)%Z.

(** [round(x, 2)]. *)
Definition round2 (x : R) : R := IZR (round_half_even (x * 100)) / 100.

(** [np.argmax]: the index of the first occurrence of the maximum. *)
Fixpoint argmax_from (best_idx : nat) (best : R) (idx : nat) (l : list R) : nat :=
  match l with
  | [] => best_idx
  | x :: l' =>
      if Rgt_dec x best then argmax_from idx x (S idx) l'
      else argmax_from best_idx best (S idx) l'
  end.

Definition argmax (l : list R) : nat :=
  match l with
  | [] => 0%nat
  | x :: l' => argmax_from 0 x 1 l'
  end.

(** ** The sentence encoder (sentence-transformers)

    Modelled from the spec: [SentenceTransformer('all-MiniLM-L6-v2')] is a
    pretrained network outside the repository.  The spec (4.5 and glossary)
    gives its contract: [encode] maps a sentence to a dense vector, and a list
    of sentences to the list of their vectors.  The tiers take the model as a
    parameter, [None] when it could not be loaded. *)

Record SentenceModel : Type := { encode : string -> list R }.

(** Modelled from the spec: a two-dimensional stand-in for the trained
    encoder (missing, see above), used where a concrete model is needed: the
    number of characters of the sentence, and 1. *)
Definition length_model : SentenceModel :=
  {| encode := fun s => [INR (String.length s); 1] |}.

(** [sentence_model.encode(sentences)] *)
Definition encode_all (m : SentenceModel) (sentences : list string) : list (list R) :=
  map (encode m) sentences.

(** ** Results of the tiers *)

Module Level1.
Record result : Type := {
  method : string;
  similarity_percentage : R;
  explanation : option string;
  error : option string
}.
End Level1.

Module Level2.
Record found : Type := {
  sentence : string;
  similarity : R;
  matching_sentence : string;
  position : nat
}.

Record result : Type := {
  method : string;
  plagiarized_sentences : list found;
  total_sentences : nat;
  plagiarized_count : nat;
  threshold : option R;
  error : option string
}.
End Level2.

Module Level3.
Record found : Type := {
  sentence : string;
  semantic_similarity : R;
  matching_sentence : string;
  position : nat;
  type : string
}.

Record result : Type := {
  method : string;
  semantic_plagiarized_sentences : list found;
  total_sentences : option nat;
  semantic_plagiarized_count : option nat;
  threshold : option R;
  explanation : option string;
  error : option string
}.
End Level3.

(** [len(s.strip()) < 10] *)
Definition too_short (s : string) : bool :=
  (PyStr.len (PyStr.strip s) <? 10)%nat.

(** [[s for s in sentences if len(s.strip()) >= 10]] *)
Definition valid_sentences (sentences : list string) : list string :=
  filter (fun s => negb (too_short s)) sentences.

Definition is_nil {A : Type} (l : list A) : bool :=
  match l with [] => true | _ => false end.

(** Row [i] of a matrix, [m[i:i+1]]. *)
Definition row (i : nat) (m : list (list R)) : list R := nth i m [].

(** The vectorize-and-compare step both lexical tiers run on a pair of
    normalized texts:
[[
    vectorizer = TfidfVectorizer()
    tfidf_matrix = vectorizer.fit_transform([a, b])
    similarity = cosine_similarity(tfidf_matrix[0:1], tfidf_matrix[1:2])[0][0]
]] *)
Definition tfidf_cosine (a b : string) : exc R :=
  match Sklearn.fit_transform [a; b] with
  | Ok tfidf_matrix =>
      Ok (Sklearn.cosine_similarity (row 0 tfidf_matrix) (row 1 tfidf_matrix))
  | Raise e => Raise e
  end.

(** ** Tier 1 *)

Definition level1_tfidf_similarity (text1 text2 : string) : Level1.result :=
  let processed_text1 := preprocess_text text1 in
  let processed_text2 := preprocess_text text2 in
  match tfidf_cosine processed_text1 processed_text2 with
  | Ok similarity =>
      let similarity_percentage := round2 (similarity * 100) in
      {| Level1.method := "TF-IDF + Cosine Similarity";
         Level1.similarity_percentage := similarity_percentage;
         Level1.explanation := Some "Measures word overlap and frequency similarity";
         Level1.error := None |}
  | Raise e =>
      {| Level1.method := "TF-IDF + Cosine Similarity";
         Level1.similarity_percentage := 0;
         Level1.explanation := None;
         Level1.error := Some e |}
  end.

(** ** Tier 2 *)

(** The inner loop [for sent2 in sentences2] of Tier 2, started from
    [max_similarity] and [matching_sentence]. *)
Fixpoint best_match (processed_sent1 : string) (sentences2 : list string)
    (max_similarity : R) (matching_sentence : string) : R * string :=
  match sentences2 with
  | [] => (max_similarity, matching_sentence)
  | sent2 :: rest =>
      if too_short sent2 then
        best_match processed_sent1 rest max_similarity matching_sentence
      else
        let processed_sent2 := preprocess_text sent2 in
        match tfidf_cosine processed_sent1 processed_sent2 with
        | Ok similarity =>
            if Rgt_dec similarity max_similarity
            then best_match processed_sent1 rest similarity sent2
            else best_match processed_sent1 rest max_similarity matching_sentence
        | Raise _ =>
            best_match processed_sent1 rest max_similarity matching_sentence
        end
  end.

(** The outer loop [for idx, sent1 in enumerate(sentences1)] of Tier 2, from
    index [idx] on. *)
Fixpoint compare_sentences (idx : nat) (sentences1 sentences2 : list string)
    (threshold : R) : list Level2.found :=
  match sentences1 with
  | [] => []
  | sent1 :: rest =>
      if too_short sent1 then compare_sentences (S idx) rest sentences2 threshold
      else
        let processed_sent1 := preprocess_text sent1 in
        let (max_similarity, matching_sentence) :=
          best_match processed_sent1 sentences2 0 "" in
        if Rge_dec max_similarity threshold then
          {| Level2.sentence := sent1;
             Level2.similarity := round2 (max_similarity * 100);
             Level2.matching_sentence := matching_sentence;
             Level2.position := idx + 1 |}
          :: compare_sentences (S idx) rest sentences2 threshold
        else compare_sentences (S idx) rest sentences2 threshold
  end.

Definition level2_failed (e : string) : Level2.result :=
  {| Level2.method := "Sentence-Level Detection";
     Level2.plagiarized_sentences := [];
     Level2.total_sentences := 0;
     Level2.plagiarized_count := 0;
     Level2.threshold := None;
     Level2.error := Some e |}.

Definition level2_sentence_level (sent_tokenize : SentTokenizer)
    (text1 text2 : string) (threshold : R) : Level2.result :=
  match sent_tokenize text1 with
  | Raise e => level2_failed e
  | Ok sentences1 =>
      match sent_tokenize text2 with
      | Raise e => level2_failed e
      | Ok sentences2 =>
          if is_nil sentences1 || is_nil sentences2 then
            {| Level2.method := "Sentence-Level Detection";
               Level2.plagiarized_sentences := [];
               Level2.total_sentences := length sentences1;
               Level2.plagiarized_count := 0;
               Level2.threshold := None;
               Level2.error := None |}
          else
            let plagiarized_sentences :=
              compare_sentences 0 sentences1 sentences2 threshold in
            {| Level2.method := "Sentence-Level Detection";
               Level2.plagiarized_sentences := plagiarized_sentences;
               Level2.total_sentences := length sentences1;
               Level2.plagiarized_count := length plagiarized_sentences;
               Level2.threshold := Some (threshold * 100);
               Level2.error := None |}
      end
  end.

(** ** Tier 3 *)

(** The loop [for idx, sent1 in enumerate(sentences1)] of Tier 3, from index
    [idx] on. *)
Fixpoint compare_embeddings (model : SentenceModel) (idx : nat)
    (sentences1 valid_sentences2 : list string) (embeddings2 : list (list R))
    (threshold : R) : list Level3.found :=
  match sentences1 with
  | [] => []
  | sent1 :: rest =>
      if too_short sent1 then
        compare_embeddings model (S idx) rest valid_sentences2 embeddings2 threshold
      else
        let embedding1 := nth 0 (encode_all model [sent1]) [] in
        let similarities := map (Sklearn.cosine_similarity embedding1) embeddings2 in
        let max_similarity_idx := argmax similarities in
        let max_similarity := nth max_similarity_idx similarities 0 in
        if Rge_dec max_similarity threshold then
          {| Level3.sentence := sent1;
             Level3.semantic_similarity := round2 (max_similarity * 100);
             Level3.matching_sentence := nth max_similarity_idx valid_sentences2 "";
             Level3.position := idx + 1;
             Level3.type := "semantic" |}
          :: compare_embeddings model (S idx) rest valid_sentences2 embeddings2 threshold
        else
          compare_embeddings model (S idx) rest valid_sentences2 embeddings2 threshold
  end.

Definition level3_unavailable : Level3.result :=
  {| Level3.method := "Semantic Similarity (Transformer)";
     Level3.semantic_plagiarized_sentences := [];
     Level3.total_sentences := None;
     Level3.semantic_plagiarized_count := None;
     Level3.threshold := None;
     Level3.explanation := None;
     Level3.error := Some "Sentence transformer model not available" |}.

Definition level3_failed (e : string) : Level3.result :=
  {| Level3.method := "Semantic Similarity (Transformer)";
     Level3.semantic_plagiarized_sentences := [];
     Level3.total_sentences := None;
     Level3.semantic_plagiarized_count := None;
     Level3.threshold := None;
     Level3.explanation := None;
     Level3.error := Some e |}.

Definition level3_nothing (sentences1 : list string) : Level3.result :=
  {| Level3.method := "Semantic Similarity (Transformer)";
     Level3.semantic_plagiarized_sentences := [];
     Level3.total_sentences := Some (length sentences1);
     Level3.semantic_plagiarized_count := Some 0%nat;
     Level3.threshold := None;
     Level3.explanation := None;
     Level3.error := None |}.

Definition level3_semantic_similarity (sentence_model : option SentenceModel)
    (sent_tokenize : SentTokenizer) (text1 text2 : string) (threshold : R)
    : Level3.result :=
  match sentence_model with
  | None => level3_unavailable
  | Some model =>
      match sent_tokenize text1 with
      | Raise e => level3_failed e
      | Ok sentences1 =>
          match sent_tokenize text2 with
          | Raise e => level3_failed e
          | Ok sentences2 =>
              if is_nil sentences1 || is_nil sentences2 then
                level3_nothing sentences1
              else
                let valid_sentences2 := valid_sentences sentences2 in
                if is_nil valid_sentences2 then level3_nothing sentences1
                else
                  let embeddings2 := encode_all model valid_sentences2 in
                  let semantic_plagiarized :=
                    compare_embeddings model 0 sentences1 valid_sentences2
                                       embeddings2 threshold in
                  {| Level3.method := "Semantic Similarity (Transformer)";
                     Level3.semantic_plagiarized_sentences := semantic_plagiarized;
                     Level3.total_sentences := Some (length sentences1);
                     Level3.semantic_plagiarized_count :=
                       Some (length semantic_plagiarized);
                     Level3.threshold := Some (threshold * 100);
                     Level3.explanation :=
                       Some "Detects paraphrased content using meaning-based analysis";
                     Level3.error := None |}
          end
      end
  end.

(** ** The endpoint [/check-plagiarism] *)

Module Http.

Inductive verb : Type := POST | OPTIONS.

(** A JSON value as far as the handler looks at it: a string, or anything
    else (on which [.strip()] raises). *)
Inductive value : Type :=
| JString (s : string)
| JOther.

(** The parsed body: [null], or an object. *)
Inductive json : Type :=
| JNull
| JObject (fields : list (string * value)).

(** [request.method] and the outcome of [request.get_json()]. *)
Record request : Type := {
  verb_of : verb;
  get_json : exc json
}.

Record summary : Type := {
  overall_similarity : R;
  total_plagiarized_sentences : nat;
  semantic_plagiarized_sentences : nat;
  text1_length : nat;
  text2_length : nat
}.

Inductive payload : Type :=
| Acknowledged
| Rejected (error : string)
| Success (level1_basic : Level1.result) (level2_sentence : Level2.result)
          (level3_semantic : Level3.result) (summary_of : summary)
| Failed (error : string) (message : string).

Record response : Type := {
  status : nat;
  body : payload
}.

(** [not data] *)
Definition falsy (data : json) : bool :=
  match data with
  | JNull => true
  | JObject fields => is_nil fields
  end.

(** [data.get(key, default)] *)
Fixpoint get (fields : list (string * value)) (key : string) (default : value)
    : value :=
  match fields with
  | [] => default
  | (k, v) :: rest => if String.eqb k key then v else get rest key default
  end.

Definition fields_of (data : json) : list (string * value) :=
  match data with
  | JNull => []
  | JObject fields => fields
  end.

(** [v.strip()] *)
Definition strip (v : value) : exc string :=
  match v with
  | JString s => Ok (PyStr.strip s)
  | JOther => Raise "object has no attribute 'strip'"
  end.

Definition internal_error (e : string) : response :=
  {| status := 500; body := Failed "Internal server error" e |}.

End Http.

(** [check_plagiarism].  [jsonify] is taken to succeed: the serialization of
    the payload is outside the embedding. *)
Definition check_plagiarism (sentence_model : option SentenceModel)
    (sent_tokenize : SentTokenizer) (request : Http.request) : Http.response :=
  match Http.verb_of request with
  | Http.OPTIONS => {| Http.status := 200; Http.body := Http.Acknowledged |}
  | Http.POST =>
      match Http.get_json request with
      | Raise e => Http.internal_error e
      | Ok data =>
          if Http.falsy data then
            {| Http.status := 400;
               Http.body := Http.Rejected "No JSON data provided" |}
          else
            match Http.strip (Http.get (Http.fields_of data) "text1" (Http.JString "")) with
            | Raise e => Http.internal_error e
            | Ok text1 =>
                match Http.strip (Http.get (Http.fields_of data) "text2" (Http.JString "")) with
                | Raise e => Http.internal_error e
                | Ok text2 =>
                    if PyStr.is_empty text1 || PyStr.is_empty text2 then
                      {| Http.status := 400;
                         Http.body := Http.Rejected "Both text1 and text2 are required" |}
                    else if (PyStr.len text1 <? 10)%nat || (PyStr.len text2 <? 10)%nat then
                      {| Http.status := 400;
                         Http.body :=
                           Http.Rejected "Texts must be at least 10 characters long" |}
                    else
                      let level1_result := level1_tfidf_similarity text1 text2 in
                      let level2_result :=
                        level2_sentence_level sent_tokenize text1 text2 0.7 in
                      let level3_result :=
                        level3_semantic_similarity sentence_model sent_tokenize
                                                   text1 text2 0.75 in
                      {| Http.status := 200;
                         Http.body :=
                           Http.Success level1_result level2_result level3_result
                             {| Http.overall_similarity :=
                                  Level1.similarity_percentage level1_result;
                                Http.total_plagiarized_sentences :=
                                  Level2.plagiarized_count level2_result;
                                Http.semantic_plagiarized_sentences :=
                                  match Level3.semantic_plagiarized_count level3_result with
                                  | Some n => n
                                  | None => 0%nat
                                  end;
                                Http.text1_length := PyStr.len text1;
                                Http.text2_length := PyStr.len text2 |} |}
                end
            end
      end
  end.

(** ** The stop-word filter and the health check *)

(** [word not in stop_words] *)
Definition is_stop_word (stop_words : list string) (word : string) : bool :=
  existsb (String.eqb word) stop_words.

(** [remove_stopwords]; [stopwords_english] is the outcome of
    [stopwords.words('english')], a fixed list of the NLTK corpus that is not
    part of the repository, or the fault of its lookup. *)
Definition remove_stopwords (stopwords_english : exc (list string))
    (text : string) : string :=
  match stopwords_english with
  | Ok stop_words =>
      let words := PyStr.split text in
      let filtered_words :=
        filter (fun word => negb (is_stop_word stop_words word)) words in
      PyStr.join " " filtered_words
  | Raise _ => text
  end.

Module Health.
Record payload : Type := {
  status_text : string;
  message : string;
  transformer_available : bool
}.
End Health.

(** [sentence_model is not None] *)
Definition is_not_none {A : Type} (o : option A) : bool :=
  match o with Some _ => true | None => false end.

(** [health_check]: the payload and the status code. *)
Definition health_check (sentence_model : option SentenceModel)
    : Health.payload * nat :=
  ({| Health.status_text := "healthy";
      Health.message := "Plagiarism Detection API is running";
      Health.transformer_available := is_not_none sentence_model |}, 200%nat).

(** ** Notions used to state and prove the properties *)

(** The sum of [h t] over the terms [t] of a vocabulary. *)
Definition sum_over (h : string -> R) (V : list string) : R :=
  fold_right Rplus 0 (map h V).

(** The factor by which [normalize] scales a row whose dot product with
    itself is [d]. *)
Definition unit_factor (d : R) : R :=
  if Req_dec_T (sqrt d) 0 then 1 else / sqrt d.

(** The cosine similarity of the normalized rows of [u] and [v], from the
    three dot products [u.u], [v.v] and [u.v]. *)
Definition cosine_of_dots (duu dvv duv : R) : R :=
  let c := unit_factor duu in
  let d := unit_factor dvv in
  unit_factor (c * c * duu) * unit_factor (d * d * dvv) * (c * d * duv).

(** The cosine similarity of the tf-idf rows of two token lists, as a sum
    over their common vocabulary. *)
Definition lexical_cosine (ta tb : list string) : R :=
  let V := Sklearn.vocabulary [ta; tb] in
  let wa := Sklearn.tfidf [ta; tb] ta in
  let wb := Sklearn.tfidf [ta; tb] tb in
  cosine_of_dots (sum_over (fun t => wa t * wa t) V)
                 (sum_over (fun t => wb t * wb t) V)
                 (sum_over (fun t => wa t * wb t) V).

(** The sentences of a text, none when the tokenizer raises. *)
Definition sentences_of (sent_tokenize : SentTokenizer) (text : string)
    : list string :=
  match sent_tokenize text with
  | Ok sentences => sentences
  | Raise _ => []
  end.

(** The score Tier 2 gives to a sentence of A against a sentence of B; none
    when the vectorizer raises on the pair. *)
Definition processed_score (processed_sent1 sent2 : string) : option R :=
  match tfidf_cosine processed_sent1 (preprocess_text sent2) with
  | Ok similarity => Some similarity
  | Raise _ => None
  end.

Definition lexical_score (sent1 sent2 : string) : option R :=
  processed_score (preprocess_text sent1) sent2.

(** The score Tier 3 gives to a sentence of A against a sentence of B. *)
Definition semantic_score (model : SentenceModel) (sent1 sent2 : string)
    : option R :=
  Some (Sklearn.cosine_similarity (encode model sent1) (encode model sent2)).

Definition semantic_score_of (sentence_model : option SentenceModel)
    (sent1 sent2 : string) : option R :=
  match sentence_model with
  | Some model => semantic_score model sent1 sent2
  | None => None
  end.

(** [b] is the first of the [candidates], in their order, whose score is the
    maximum [m] of the scores of all candidates. *)
Definition first_best (score : string -> option R) (candidates : list string)
    (b : string) (m : R) : Prop :=
  exists pre post : list string,
    candidates = (pre ++ b :: post)%list /\
    score b = Some m /\
    (forall c, In c candidates -> exists x, score c = Some x /\ x <= m) /\
    (forall c x, In c pre -> score c = Some x -> x < m).

(** What Tier 2 records for the sentence at index [k] of A. *)
Definition emitted2 (sentences1 sentences2 : list string) (threshold : R)
    (k : nat) (f : Level2.found) : Prop :=
  nth_error sentences1 k = Some (Level2.sentence f) /\
  Level2.position f = (k + 1)%nat /\
  too_short (Level2.sentence f) = false /\
  let r := best_match (preprocess_text (Level2.sentence f)) sentences2 0 "" in
  fst r >= threshold /\
  Level2.similarity f = round2 (fst r * 100) /\
  Level2.matching_sentence f = snd r.

(** What Tier 3 records for the sentence at index [k] of A. *)
Definition emitted3 (model : SentenceModel)
    (sentences1 valid_sentences2 : list string) (threshold : R)
    (k : nat) (f : Level3.found) : Prop :=
  nth_error sentences1 k = Some (Level3.sentence f) /\
  Level3.position f = (k + 1)%nat /\
  too_short (Level3.sentence f) = false /\
  let similarities :=
    map (Sklearn.cosine_similarity (encode model (Level3.sentence f)))
        (encode_all model valid_sentences2) in
  let i := argmax similarities in
  nth i similarities 0 >= threshold /\
  Level3.semantic_similarity f = round2 (nth i similarities 0 * 100) /\
  Level3.matching_sentence f = nth i valid_sentences2 "" /\
  Level3.type f = "semantic".

(** The record made for the sentence at [position] of A pairs it with the
    first best-scoring valid sentence of B and carries that score as a
    percentage. *)
Definition best_aligned (score : string -> string -> option R)
    (sentences1 sentences2 : list string)
    (position : nat) (sentence matching : string) (percentage : R) : Prop :=
  nth_error sentences1 (position - 1) = Some sentence /\
  too_short sentence = false /\
  exists m : R,
    first_best (score sentence) (valid_sentences sentences2) matching m /\
    percentage = round2 (m * 100).

(** The case of the first candidate, whose score [Sc] is known, and the case
    of the later ones, left to the hypotheses. *)
Ltac head_or_tail Sc :=
  let c := fresh "c" in
  let x := fresh "x" in
  let Hin := fresh "Hin" in
  let Hs := fresh "Hs" in
  intros c x [<-|Hin] Hs;
  [rewrite Sc in Hs; first [discriminate Hs | injection Hs as <-; lra]
  |eauto].

(** [len(s.strip()) >= 10] and the normalized sentence has a token. *)
Definition comparable (s : string) : bool :=
  negb (too_short s) && negb (is_nil (Sklearn.tokenize (preprocess_text s))).

(** * Properties *)

(** ** Strings *)

Section StringFacts.

Import PyStr.

Lemma all_chars_app (p : ascii -> bool) (a b : string) :
  all_chars p (a ++ b) = all_chars p a && all_chars p b.
Proof.
  induction a as [|c a IH]; simpl; [reflexivity|].
  now rewrite IH, andb_assoc.
Qed.

Lemma all_chars_join (p : ascii -> bool) (ws : list string) :
  p " "%char = true ->
  Forall (fun w => all_chars p w = true) ws ->
  all_chars p (join " " ws) = true.
Proof.
  intros Hsp H; induction H as [|w ws Hw Hws IH]; [reflexivity|].
  destruct ws as [|w' ws']; [exact Hw|].
  change (join " " (w :: w' :: ws')) with (w ++ " " ++ join " " (w' :: ws')).
  rewrite !all_chars_app, Hw, IH; simpl; now rewrite Hsp.
Qed.

Variable sep : ascii -> bool.

Lemma fields_are_fields (s : string) : Forall (is_field sep) (fields sep s).
Proof.
  induction s as [|c s IH]; simpl; [constructor|].
  destruct (sep c) eqn:Hc; [exact IH|].
  assert (Hone : is_field sep (String c EmptyString)).
  { split; [discriminate|]. simpl. now rewrite Hc. }
  destruct (starts_field sep s).
  - destruct (fields sep s) as [|w ws]; [repeat constructor; apply Hone|].
    inversion IH as [|? ? [_ Hw] Hws]; subst.
    constructor; [|exact Hws].
    split; [discriminate|]. simpl. now rewrite Hc, Hw.
  - constructor; assumption.
Qed.

Lemma fields_keep (p : ascii -> bool) (s : string) :
  all_chars p s = true ->
  Forall (fun w => all_chars p w = true) (fields sep s).
Proof.
  induction s as [|c s IH]; simpl; [constructor|].
  intros H; apply andb_true_iff in H as [Hc Hs]. specialize (IH Hs).
  destruct (sep c); [exact IH|].
  destruct (starts_field sep s).
  - destruct (fields sep s) as [|w ws].
    + repeat constructor. simpl. now rewrite Hc.
    + inversion IH; subst. constructor; [|assumption].
      simpl. now rewrite Hc.
  - constructor; [|exact IH]. simpl. now rewrite Hc.
Qed.

(** Cutting a field followed by a separator (or by nothing) gives the field
    back. *)
Lemma fields_field_app (w rest : string) :
  is_field sep w ->
  starts_field sep rest = false ->
  fields sep (w ++ rest) = w :: fields sep rest.
Proof.
  intros [Hne Hw] Hrest. induction w as [|c w IH]; [congruence|].
  simpl in Hw. apply andb_true_iff in Hw as [Hc Hw].
  apply negb_true_iff in Hc.
  simpl. rewrite Hc.
  destruct w as [|c' w'].
  - simpl. now rewrite Hrest.
  - assert (Hst : starts_field sep (String c' w' ++ rest) = true).
    { simpl in Hw |- *. now apply andb_true_iff in Hw as [-> _]. }
    rewrite Hst, IH; [reflexivity|discriminate|exact Hw].
Qed.

Lemma fields_join (blank : ascii) (ws : list string) :
  sep blank = true ->
  Forall (is_field sep) ws ->
  fields sep (join (String blank EmptyString) ws) = ws.
Proof.
  intros Hb H. induction H as [|w ws Hw Hws IH]; [reflexivity|].
  destruct ws as [|w' ws'].
  - simpl. transitivity (fields sep (w ++ EmptyString)).
    + f_equal. clear. induction w; simpl; congruence.
    + now rewrite fields_field_app.
  - change (join (String blank EmptyString) (w :: w' :: ws'))
      with (w ++ String blank (join (String blank EmptyString) (w' :: ws'))).
    rewrite fields_field_app; [|exact Hw|simpl; now rewrite Hb].
    f_equal. simpl fields at 1. rewrite Hb. exact IH.
Qed.

End StringFacts.

Section Normalizer.

Import PyStr.

Lemma lower_char_not_upper (c : ascii) : is_upper (lower_char c) = false.
Proof.
  destruct c as [[] [] [] [] [] [] [] []]; reflexivity.
Qed.

Lemma lower_all_lower (s : string) :
  all_chars (fun c => negb (is_upper c)) (lower s) = true.
Proof.
  induction s as [|c s IH]; simpl; [reflexivity|].
  now rewrite lower_char_not_upper, IH.
Qed.

Lemma lower_fixed (s : string) :
  all_chars (fun c => negb (is_upper c)) s = true -> lower s = s.
Proof.
  induction s as [|c s IH]; simpl; [reflexivity|].
  intros H; apply andb_true_iff in H as [Hc Hs].
  unfold lower_char. apply negb_true_iff in Hc. rewrite Hc.
  now rewrite IH.
Qed.

Lemma remove_punctuation_keep (p : ascii -> bool) (s : string) :
  all_chars p s = true -> all_chars p (remove_punctuation s) = true.
Proof.
  induction s as [|c s IH]; simpl; [reflexivity|].
  intros H; apply andb_true_iff in H as [Hc Hs].
  destruct (is_punctuation c); simpl; [auto|]. now rewrite Hc, IH.
Qed.

Lemma remove_punctuation_clean (s : string) :
  all_chars (fun c => negb (is_punctuation c)) (remove_punctuation s) = true.
Proof.
  induction s as [|c s IH]; simpl; [reflexivity|].
  destruct (is_punctuation c) eqn:Hc; simpl; [exact IH|].
  now rewrite Hc, IH.
Qed.

Lemma remove_punctuation_fixed (s : string) :
  all_chars (fun c => negb (is_punctuation c)) s = true ->
  remove_punctuation s = s.
Proof.
  induction s as [|c s IH]; simpl; [reflexivity|].
  intros H; apply andb_true_iff in H as [Hc Hs].
  apply negb_true_iff in Hc. rewrite Hc. now rewrite IH.
Qed.

(** The normal form: lower-case, free of punctuation, words separated by
    exactly one space. *)
Lemma preprocess_text_shape (t : string) :
  exists ws : list string,
    preprocess_text t = join " " ws /\
    Forall (is_field is_space) ws /\
    Forall (fun w => all_chars (fun c => negb (is_upper c)) w = true) ws /\
    Forall (fun w => all_chars (fun c => negb (is_punctuation c)) w = true) ws.
Proof.
  exists (split (remove_punctuation (lower t))). split; [reflexivity|].
  split; [apply fields_are_fields|]. split.
  - apply fields_keep, remove_punctuation_keep, lower_all_lower.
  - apply fields_keep, remove_punctuation_clean.
Qed.

End Normalizer.

(** C10. [preprocess_text] is idempotent: normalizing an already normalized
    text leaves it unchanged. *)
Theorem preprocess_text_idempotent (t : string) :
  preprocess_text (preprocess_text t) = preprocess_text t.
Proof.
  destruct (preprocess_text_shape t) as (ws & -> & Hf & Hu & Hp).
  unfold preprocess_text.
  rewrite lower_fixed by (now apply all_chars_join).
  rewrite remove_punctuation_fixed by (now apply all_chars_join).
  unfold PyStr.split. now rewrite fields_join.
Qed.

(** ** Dot products, norms and the cosine *)

Section CosineFacts.

Import Sklearn.

Lemma dot_nil_r (u : list R) : dot u [] = 0.
Proof. unfold dot. now destruct u. Qed.

Lemma dot_cons (x y : R) (u v : list R) :
  dot (x :: u) (y :: v) = x * y + dot u v.
Proof. reflexivity. Qed.

Lemma dot_comm (u v : list R) : dot u v = dot v u.
Proof.
  revert v; induction u as [|x u IH]; intros [|y v];
    try reflexivity.
  rewrite !dot_cons, (IH v). ring.
Qed.

Lemma dot_scale (c d : R) (u v : list R) :
  dot (map (fun x => x * c) u) (map (fun x => x * d) v) = c * d * dot u v.
Proof.
  revert v; induction u as [|x u IH]; intros [|y v]; simpl map;
    rewrite ?dot_nil_r; try (unfold dot; simpl; ring).
  rewrite !dot_cons, IH. ring.
Qed.

Lemma dot_self_nonneg (u : list R) : 0 <= dot u u.
Proof.
  induction u as [|x u IH]; [unfold dot; simpl; lra|].
  rewrite dot_cons. nra.
Qed.

Lemma normalize_scale (u : list R) :
  normalize u = map (fun x => x * unit_factor (dot u u)) u.
Proof.
  unfold normalize, unit_factor, norm.
  destruct (Req_dec_T (sqrt (dot u u)) 0) as [_|_].
  - rewrite <- (map_id u) at 1. apply map_ext. intros; ring.
  - reflexivity.
Qed.

(** The cosine of two normalized rows only depends on three dot
    products. *)
Lemma cosine_similarity_dots (u v : list R) :
  cosine_similarity (normalize u) (normalize v) =
  cosine_of_dots (dot u u) (dot v v) (dot u v).
Proof.
  unfold cosine_similarity, cosine_of_dots.
  rewrite (normalize_scale (normalize u)), (normalize_scale (normalize v)).
  rewrite (normalize_scale u), (normalize_scale v).
  now rewrite !dot_scale.
Qed.

Lemma cosine_of_dots_swap (duu dvv duv : R) :
  cosine_of_dots duu dvv duv = cosine_of_dots dvv duu duv.
Proof. unfold cosine_of_dots. ring. Qed.

Lemma cosine_of_dots_zero (duu dvv : R) : cosine_of_dots duu dvv 0 = 0.
Proof. unfold cosine_of_dots. ring. Qed.

Lemma unit_factor_square (d : R) :
  0 < d -> unit_factor d * unit_factor d * d = 1.
Proof.
  intros Hd. unfold unit_factor.
  pose proof (sqrt_lt_R0 d Hd) as Hs.
  destruct (Req_dec_T (sqrt d) 0) as [E|_]; [lra|].
  rewrite <- (sqrt_sqrt d) at 3 by lra. field. lra.
Qed.

Lemma unit_factor_1 : unit_factor 1 = 1.
Proof.
  unfold unit_factor. rewrite sqrt_1.
  destruct (Req_dec_T 1 0); [lra|]. field.
Qed.

Lemma cosine_of_dots_self (d : R) : 0 < d -> cosine_of_dots d d d = 1.
Proof.
  intros Hd. unfold cosine_of_dots.
  rewrite (unit_factor_square d Hd), unit_factor_1. ring.
Qed.

Lemma cosine_similarity_self (v : list R) :
  0 < dot v v -> cosine_similarity v v = 1.
Proof.
  intros H. unfold cosine_similarity.
  rewrite normalize_scale, dot_scale. now apply unit_factor_square.
Qed.

Lemma dot_map (f g : string -> R) (V : list string) :
  dot (map f V) (map g V) = sum_over (fun t => f t * g t) V.
Proof.
  unfold sum_over.
  induction V as [|t V IH]; [reflexivity|].
  simpl map. rewrite dot_cons, IH. reflexivity.
Qed.

Lemma sum_over_perm (h : string -> R) (V V' : list string) :
  Permutation V V' -> sum_over h V = sum_over h V'.
Proof.
  unfold sum_over.
  induction 1 as [|t V V' _ IH|t t' V|V V' V'' _ IH1 _ IH2]; simpl.
  - reflexivity.
  - now rewrite IH.
  - ring.
  - now rewrite IH1.
Qed.

Lemma sum_over_ext (h h' : string -> R) (V : list string) :
  (forall t, In t V -> h t = h' t) -> sum_over h V = sum_over h' V.
Proof.
  unfold sum_over.
  induction V as [|t V IH]; intros H; [reflexivity|].
  simpl. rewrite (H t) by (now left). rewrite IH; [reflexivity|].
  intros; apply H; now right.
Qed.

Lemma sum_over_zero (h : string -> R) (V : list string) :
  (forall t, In t V -> h t = 0) -> sum_over h V = 0.
Proof.
  unfold sum_over.
  induction V as [|t V IH]; intros H; [reflexivity|].
  simpl. rewrite (H t) by (now left). rewrite IH; [ring|].
  intros; apply H; now right.
Qed.

Lemma sum_over_nonneg (h : string -> R) (V : list string) :
  (forall t, 0 <= h t) -> 0 <= sum_over h V.
Proof.
  intros H. unfold sum_over.
  induction V as [|t V IH]; simpl; [lra|]. specialize (H t). lra.
Qed.

Lemma sum_over_pos (h : string -> R) (V : list string) (t : string) :
  (forall t, 0 <= h t) -> In t V -> 0 < h t -> 0 < sum_over h V.
Proof.
  intros H Hin Ht.
  induction V as [|t' V IH]; [contradiction|].
  change (sum_over h (t' :: V)) with (h t' + sum_over h V).
  pose proof (sum_over_nonneg h V H).
  destruct Hin as [->|Hin]; [lra|].
  specialize (IH Hin). specialize (H t'). lra.
Qed.

End CosineFacts.

(** ** The vectorizer *)

Section VectorizerFacts.

Import Sklearn.

Lemma insert_sorted_perm (t : string) (l : list string) :
  Permutation (insert_sorted t l) (t :: l).
Proof.
  induction l as [|u l IH]; simpl; [reflexivity|].
  destruct (String.leb t u); [reflexivity|].
  rewrite IH. apply perm_swap.
Qed.

Lemma sorted_perm (l : list string) : Permutation (sorted l) l.
Proof.
  induction l as [|t l IH]; simpl; [reflexivity|].
  rewrite insert_sorted_perm. now constructor.
Qed.

Lemma vocabulary_perm (docs : list (list string)) :
  Permutation (vocabulary docs) (nodup string_dec (concat docs)).
Proof. apply sorted_perm. Qed.

Lemma vocabulary_In (docs : list (list string)) (t : string) :
  In t (vocabulary docs) <-> In t (concat docs).
Proof.
  rewrite <- (nodup_In string_dec (concat docs) t).
  split; apply Permutation_in.
  - apply vocabulary_perm.
  - symmetry; apply vocabulary_perm.
Qed.

Lemma vocabulary_NoDup (docs : list (list string)) : NoDup (vocabulary docs).
Proof.
  apply (Permutation_NoDup (l := nodup string_dec (concat docs))).
  - symmetry; apply vocabulary_perm.
  - apply NoDup_nodup.
Qed.

Lemma vocabulary_pair_In (ta tb : list string) (t : string) :
  In t (vocabulary [ta; tb]) <-> In t ta \/ In t tb.
Proof.
  rewrite vocabulary_In. simpl. rewrite app_nil_r. apply in_app_iff.
Qed.

Lemma vocabulary_swap (ta tb : list string) :
  Permutation (vocabulary [ta; tb]) (vocabulary [tb; ta]).
Proof.
  apply NoDup_Permutation; try apply vocabulary_NoDup.
  intros t. rewrite !vocabulary_pair_In. tauto.
Qed.

Lemma vocabulary_pair_nil (ta tb : list string) :
  vocabulary [ta; tb] = [] <-> ta = [] /\ tb = [].
Proof.
  split.
  - intros E. destruct ta as [|t ta].
    + destruct tb as [|t tb]; [auto|].
      assert (H : In t (vocabulary [[]; t :: tb]))
        by (apply vocabulary_pair_In; right; now left).
      rewrite E in H. contradiction.
    + assert (H : In t (vocabulary [t :: ta; tb]))
        by (apply vocabulary_pair_In; left; now left).
      rewrite E in H. contradiction.
  - intros [-> ->]. reflexivity.
Qed.

Lemma df_swap (t : string) (ta tb : list string) :
  df t [ta; tb] = df t [tb; ta].
Proof.
  unfold df. simpl.
  destruct (existsb (String.eqb t) ta), (existsb (String.eqb t) tb); reflexivity.
Qed.

Lemma tfidf_swap (ta tb d : list string) (t : string) :
  tfidf [ta; tb] d t = tfidf [tb; ta] d t.
Proof. unfold tfidf. now rewrite df_swap. Qed.

Lemma existsb_eqb_In (t : string) (d : list string) :
  existsb (String.eqb t) d = true <-> In t d.
Proof.
  rewrite existsb_exists. split.
  - intros (u & Hu & E). apply String.eqb_eq in E. now subst.
  - intros H. exists t. split; [exact H|apply String.eqb_refl].
Qed.

Lemma idf_full : idf 2 2 = 1.
Proof.
  unfold idf. simpl INR.
  replace ((1 + (1 + 1)) / (1 + (1 + 1))) with 1 by (field; lra).
  rewrite ln_1. ring.
Qed.

(** The weights of a document compared with itself are its term counts. *)
Lemma tfidf_self (d : list string) (t : string) :
  In t d -> tfidf [d; d] d t = INR (tf t d).
Proof.
  intros H. unfold tfidf, df. simpl.
  apply existsb_eqb_In in H. rewrite H. simpl length.
  rewrite idf_full. ring.
Qed.

Lemma tf_pos (d : list string) (t : string) : In t d -> 0 < INR (tf t d).
Proof.
  intros H. apply lt_0_INR. unfold tf.
  now apply (count_occ_In string_dec).
Qed.

Lemma tf_absent (d : list string) (t : string) : ~ In t d -> tf t d = 0%nat.
Proof. intros H. unfold tf. now apply count_occ_not_In. Qed.

End VectorizerFacts.

(** ** The vectorize-and-compare step *)

Section LexicalFacts.

Import Sklearn.

Lemma tfidf_cosine_unfold (a b : string) :
  tfidf_cosine a b =
  if is_nil (vocabulary [tokenize a; tokenize b]) then Raise empty_vocabulary
  else Ok (lexical_cosine (tokenize a) (tokenize b)).
Proof.
  unfold tfidf_cosine, fit_transform, lexical_cosine.
  change (map tokenize [a; b]) with [tokenize a; tokenize b].
  destruct (vocabulary [tokenize a; tokenize b]) as [|t V] eqn:E;
    [reflexivity|].
  cbn [is_nil]. rewrite <- E. cbn [map row nth]. f_equal.
  rewrite cosine_similarity_dots. now rewrite !dot_map.
Qed.

Lemma tfidf_cosine_raises (a b : string) :
  tokenize a = [] -> tokenize b = [] ->
  tfidf_cosine a b = Raise empty_vocabulary.
Proof.
  intros Ha Hb. rewrite tfidf_cosine_unfold, Ha, Hb. reflexivity.
Qed.

Lemma tfidf_cosine_returns (a b : string) :
  tokenize a <> [] \/ tokenize b <> [] ->
  tfidf_cosine a b = Ok (lexical_cosine (tokenize a) (tokenize b)).
Proof.
  intros H. rewrite tfidf_cosine_unfold.
  destruct (vocabulary [tokenize a; tokenize b]) eqn:E; [|reflexivity].
  apply vocabulary_pair_nil in E. tauto.
Qed.

(** Vectorization fails exactly when neither text has a token. *)
Lemma tfidf_cosine_raise_iff (a b : string) (e : string) :
  tfidf_cosine a b = Raise e <->
  tokenize a = [] /\ tokenize b = [] /\ e = empty_vocabulary.
Proof.
  rewrite tfidf_cosine_unfold.
  destruct (vocabulary [tokenize a; tokenize b]) eqn:E; cbn [is_nil].
  - apply vocabulary_pair_nil in E as [Ha Hb]. split.
    + intros [= <-]. auto.
    + intros (_ & _ & ->). reflexivity.
  - split; [discriminate|]. intros (Ha & Hb & _).
    assert (E' : vocabulary [tokenize a; tokenize b] = [])
      by (now apply vocabulary_pair_nil).
    congruence.
Qed.

Lemma lexical_cosine_sym (ta tb : list string) :
  lexical_cosine ta tb = lexical_cosine tb ta.
Proof.
  unfold lexical_cosine.
  rewrite cosine_of_dots_swap.
  rewrite !(sum_over_perm _ _ _ (vocabulary_swap ta tb)).
  f_equal; apply sum_over_ext; intros t _; rewrite !(tfidf_swap ta tb);
    [reflexivity|reflexivity|ring].
Qed.

Lemma lexical_cosine_self (ta : list string) :
  ta <> [] -> lexical_cosine ta ta = 1.
Proof.
  intros Hne. unfold lexical_cosine. apply cosine_of_dots_self.
  destruct ta as [|t ta]; [congruence|].
  apply (sum_over_pos _ _ t).
  - intros u. nra.
  - apply vocabulary_pair_In. left. now left.
  - rewrite tfidf_self by (now left).
    pose proof (tf_pos (t :: ta) t (or_introl eq_refl)). nra.
Qed.

(** Without a common term the cosine is zero. *)
Lemma lexical_cosine_disjoint (ta tb : list string) :
  (forall t, In t ta -> ~ In t tb) -> lexical_cosine ta tb = 0.
Proof.
  intros H. unfold lexical_cosine.
  rewrite (sum_over_zero (fun t => tfidf [ta; tb] ta t * tfidf [ta; tb] tb t)).
  - apply cosine_of_dots_zero.
  - intros t _. unfold tfidf.
    destruct (in_dec string_dec t ta) as [Hin|Hout].
    + rewrite (tf_absent tb t) by (now apply H). simpl. ring.
    + rewrite (tf_absent ta t Hout). simpl. ring.
Qed.

End LexicalFacts.

(** ** Rounding *)

Lemma Int_part_IZR (z : Z) : Int_part (IZR z) = z.
Proof. symmetry. apply Int_part_spec. lra. Qed.

Lemma round_half_even_IZR (z : Z) : round_half_even (IZR z) = z.
Proof.
  unfold round_half_even. rewrite Int_part_IZR.
  destruct (Rlt_dec (IZR z - IZR z) (1 / 2)) as [_|H]; [reflexivity|].
  exfalso; apply H; lra.
Qed.

Lemma round_half_even_floor (y : R) : (Int_part y <= round_half_even y)%Z.
Proof.
  unfold round_half_even.
  destruct (Rlt_dec _ _); [lia|].
  destruct (Rlt_dec _ _); [lia|].
  destruct (Z.even _); lia.
Qed.

Lemma Int_part_ge (y : R) (k : Z) : IZR k <= y -> (k <= Int_part y)%Z.
Proof.
  intros H. destruct (base_Int_part y) as [_ Hup].
  assert (Hlt : IZR k < IZR (Int_part y + 1)) by (rewrite plus_IZR; lra).
  apply lt_IZR in Hlt. lia.
Qed.

(** Rounding to two decimals never goes below a bound that has itself at
    most two decimals. *)
Lemma round2_ge (x : R) (k : Z) : IZR k / 100 <= x -> IZR k / 100 <= round2 x.
Proof.
  intros H. unfold round2.
  assert (Hk : (k <= round_half_even (x * 100))%Z).
  { etransitivity; [|apply round_half_even_floor]. apply Int_part_ge. lra. }
  apply IZR_le in Hk. lra.
Qed.

Lemma round2_100 : round2 (1 * 100) = 100.
Proof.
  unfold round2. replace (1 * 100 * 100) with (IZR 10000) by lra.
  rewrite round_half_even_IZR. lra.
Qed.

Lemma round2_0 : round2 (0 * 100) = 0.
Proof.
  unfold round2. replace (0 * 100 * 100) with (IZR 0) by lra.
  rewrite round_half_even_IZR. lra.
Qed.

(** ** Tier 1 *)

Lemma tfidf_cosine_sym (a b : string) : tfidf_cosine a b = tfidf_cosine b a.
Proof.
  rewrite !tfidf_cosine_unfold, lexical_cosine_sym.
  pose proof (vocabulary_swap (Sklearn.tokenize a) (Sklearn.tokenize b)) as P.
  destruct (Sklearn.vocabulary [Sklearn.tokenize a; Sklearn.tokenize b]).
  - apply Permutation_nil in P. now rewrite P.
  - destruct (Sklearn.vocabulary [Sklearn.tokenize b; Sklearn.tokenize a]);
      [|reflexivity].
    symmetry in P. now apply Permutation_nil in P.
Qed.

Lemma fit_transform_raise (a b e : string) :
  Sklearn.fit_transform [a; b] = Raise e -> tfidf_cosine a b = Raise e.
Proof. intros H. unfold tfidf_cosine. now rewrite H. Qed.

(** C7. Tier 1 is symmetric: the percentage returned for (A, B) is the one
    returned for (B, A). *)
Theorem level1_symmetric (text1 text2 : string) :
  Level1.similarity_percentage (level1_tfidf_similarity text1 text2) =
  Level1.similarity_percentage (level1_tfidf_similarity text2 text1).
Proof.
  unfold level1_tfidf_similarity.
  rewrite (tfidf_cosine_sym (preprocess_text text1) (preprocess_text text2)).
  destruct (tfidf_cosine (preprocess_text text2) (preprocess_text text1));
    reflexivity.
Qed.

(** The fault occurs exactly when both normalized documents are without
    token; a single empty document gives a zero row, and the percentage 0
    comes without an error. *)
Lemma level1_one_empty (text1 text2 : string) :
  Sklearn.tokenize (preprocess_text text1) = [] ->
  Sklearn.tokenize (preprocess_text text2) <> [] ->
  level1_tfidf_similarity text1 text2 =
  {| Level1.method := "TF-IDF + Cosine Similarity";
     Level1.similarity_percentage := 0;
     Level1.explanation := Some "Measures word overlap and frequency similarity";
     Level1.error := None |}.
Proof.
  intros H1 H2. unfold level1_tfidf_similarity.
  rewrite tfidf_cosine_returns by (now right).
  rewrite lexical_cosine_disjoint, round2_0; [reflexivity|].
  rewrite H1. intros t [].
Qed.

(** C6, as the code has it. When both normalized documents are without
    token, vectorization fails and Tier 1 returns a result with percentage 0
    and the error message of the fault; being a result, nothing is raised to
    the caller. *)
Theorem level1_empty_vocabulary (text1 text2 : string) :
  Sklearn.tokenize (preprocess_text text1) = [] ->
  Sklearn.tokenize (preprocess_text text2) = [] ->
  Sklearn.fit_transform [preprocess_text text1; preprocess_text text2] =
    Raise Sklearn.empty_vocabulary /\
  level1_tfidf_similarity text1 text2 =
  {| Level1.method := "TF-IDF + Cosine Similarity";
     Level1.similarity_percentage := 0;
     Level1.explanation := None;
     Level1.error := Some Sklearn.empty_vocabulary |}.
Proof.
  intros H1 H2. split.
  - unfold Sklearn.fit_transform.
    change (map Sklearn.tokenize [preprocess_text text1; preprocess_text text2])
      with [Sklearn.tokenize (preprocess_text text1);
            Sklearn.tokenize (preprocess_text text2)].
    now rewrite H1, H2.
  - unfold level1_tfidf_similarity.
    now rewrite (tfidf_cosine_raises _ _ H1 H2).
Qed.

Lemma level1_empty_vocabulary_witness :
  Sklearn.fit_transform [preprocess_text "?!?!?!?!?!?!"; preprocess_text "a b c d e f g"] =
    Raise Sklearn.empty_vocabulary /\
  level1_tfidf_similarity "?!?!?!?!?!?!" "a b c d e f g" =
  {| Level1.method := "TF-IDF + Cosine Similarity";
     Level1.similarity_percentage := 0;
     Level1.explanation := None;
     Level1.error := Some Sklearn.empty_vocabulary |}.
Proof.
  apply (level1_empty_vocabulary "?!?!?!?!?!?!" "a b c d e f g").
  - reflexivity.
  - reflexivity.
Defined.

(** C6 fails as stated: the first document has no token, the second has
    some; the vectorizer does not fail, and the result has the percentage 0
    without an error field. *)
Lemma level1_empty_vocabulary_counterexample :
  Sklearn.tokenize (preprocess_text "a b c d e f g") = [] /\
  level1_tfidf_similarity "a b c d e f g" "Deep learning has changed vision." =
  {| Level1.method := "TF-IDF + Cosine Similarity";
     Level1.similarity_percentage := 0;
     Level1.explanation := Some "Measures word overlap and frequency similarity";
     Level1.error := None |}.
Proof.
  split; [reflexivity|].
  apply level1_one_empty; [reflexivity|vm_compute; discriminate].
Qed.

(** C4, as the code has it. A text that keeps at least one token compared
    with itself has the percentage 100. *)
Theorem level1_identical (text : string) :
  Sklearn.tokenize (preprocess_text text) <> [] ->
  level1_tfidf_similarity text text =
  {| Level1.method := "TF-IDF + Cosine Similarity";
     Level1.similarity_percentage := 100;
     Level1.explanation := Some "Measures word overlap and frequency similarity";
     Level1.error := None |}.
Proof.
  intros H. unfold level1_tfidf_similarity.
  rewrite tfidf_cosine_returns by (now left).
  now rewrite lexical_cosine_self, round2_100.
Qed.

Lemma level1_identical_witness :
  level1_tfidf_similarity "Deep learning has revolutionized computer vision."
                          "Deep learning has revolutionized computer vision." =
  {| Level1.method := "TF-IDF + Cosine Similarity";
     Level1.similarity_percentage := 100;
     Level1.explanation := Some "Measures word overlap and frequency similarity";
     Level1.error := None |}.
Proof.
  apply (level1_identical "Deep learning has revolutionized computer vision.").
  vm_compute. discriminate.
Defined.

(** C4 fails as stated: a text of one-letter words has no token, its
    comparison with itself raises in the vectorizer, and the percentage is 0. *)
Lemma level1_identical_counterexample :
  level1_tfidf_similarity "a b c d e f g" "a b c d e f g" =
  {| Level1.method := "TF-IDF + Cosine Similarity";
     Level1.similarity_percentage := 0;
     Level1.explanation := None;
     Level1.error := Some Sklearn.empty_vocabulary |}
  /\ Level1.similarity_percentage
       (level1_tfidf_similarity "a b c d e f g" "a b c d e f g") <> 100.
Proof.
  assert (E : tfidf_cosine (preprocess_text "a b c d e f g")
                           (preprocess_text "a b c d e f g")
              = Raise Sklearn.empty_vocabulary)
    by (apply tfidf_cosine_raises; reflexivity).
  unfold level1_tfidf_similarity. rewrite E. split; [reflexivity|].
  simpl. lra.
Qed.

(** ** Tier 2: the two loops *)

Section Tier2Facts.

Variable p : string.

Lemma processed_score_ok (c : string) (x : R) :
  tfidf_cosine p (preprocess_text c) = Ok x -> processed_score p c = Some x.
Proof. intros E. unfold processed_score. now rewrite E. Qed.

Lemma processed_score_raise (c e : string) :
  tfidf_cosine p (preprocess_text c) = Raise e -> processed_score p c = None.
Proof. intros E. unfold processed_score. now rewrite E. Qed.

(** The state of the inner loop after the sentences [l], started from
    [(m0, s0)]: either nothing scored above [m0], or the state is the first
    valid sentence of [l] with the greatest score. *)
Lemma best_match_scan (l : list string) :
  forall (m0 : R) (s0 : string) (m : R) (s : string),
    best_match p l m0 s0 = (m, s) ->
    (m = m0 /\ s = s0 /\
     forall c x, In c (valid_sentences l) -> processed_score p c = Some x -> x <= m0)
    \/
    (m0 < m /\
     exists pre post : list string,
       valid_sentences l = (pre ++ s :: post)%list /\
       processed_score p s = Some m /\
       (forall c x, In c (valid_sentences l) -> processed_score p c = Some x -> x <= m) /\
       (forall c x, In c pre -> processed_score p c = Some x -> x < m)).
Proof.
  induction l as [|c l IH]; intros m0 s0 m s H; simpl in H.
  - injection H as <- <-. left. repeat split; auto. intros ? ? [].
  - unfold valid_sentences in *. simpl filter.
    destruct (too_short c) eqn:Hc; simpl negb; cbv iota; [now apply IH|].
    destruct (tfidf_cosine p (preprocess_text c)) as [x|e] eqn:Ec.
    + pose proof (processed_score_ok c x Ec) as Sc.
      destruct (Rgt_dec x m0) as [Hgt|Hle].
      * destruct (IH _ _ _ _ H) as [(-> & -> & Hall)|(Hlt & pre & post & E & Ss & Hall & Hpre)].
        -- right. split; [lra|]. exists [], (filter (fun s => negb (too_short s)) l).
           repeat split; auto.
           ++ head_or_tail Sc.
           ++ intros ? ? [].
        -- right. split; [lra|]. exists (c :: pre), post.
           repeat split; auto.
           ++ simpl. now rewrite E.
           ++ head_or_tail Sc.
           ++ head_or_tail Sc.
      * destruct (IH _ _ _ _ H) as [(-> & -> & Hall)|(Hlt & pre & post & E & Ss & Hall & Hpre)].
        -- left. repeat split; auto.
           head_or_tail Sc.
        -- right. split; [lra|]. exists (c :: pre), post.
           repeat split; auto.
           ++ simpl. now rewrite E.
           ++ head_or_tail Sc.
           ++ head_or_tail Sc.
    + pose proof (processed_score_raise c e Ec) as Sc.
      destruct (IH _ _ _ _ H) as [(-> & -> & Hall)|(Hlt & pre & post & E & Ss & Hall & Hpre)].
      * left. repeat split; auto.
        head_or_tail Sc.
      * right. split; [lra|]. exists (c :: pre), post.
        repeat split; auto.
        -- simpl. now rewrite E.
        -- head_or_tail Sc.
        -- head_or_tail Sc.
Qed.

End Tier2Facts.

(** A score that is not zero needs a token on each side. *)
Lemma tfidf_cosine_nonzero (a b : string) (x : R) :
  tfidf_cosine a b = Ok x -> x <> 0 -> Sklearn.tokenize a <> [].
Proof.
  intros H Hx Ha. rewrite tfidf_cosine_unfold in H.
  destruct (is_nil _); [discriminate|]. injection H as <-.
  apply Hx, lexical_cosine_disjoint. rewrite Ha. intros t [].
Qed.

(** With a token in the sentence of A, every sentence of B gets a score. *)
Lemma processed_score_total (p c : string) :
  Sklearn.tokenize p <> [] -> exists x, processed_score p c = Some x.
Proof.
  intros Hp. unfold processed_score.
  rewrite tfidf_cosine_returns by (now left). eauto.
Qed.

(** The inner loop of Tier 2, when it ends above zero, ends on the first
    sentence of B with the greatest score. *)
Lemma best_match_first_best (p : string) (l : list string) (m : R) (s : string) :
  best_match p l 0 "" = (m, s) -> 0 < m ->
  first_best (processed_score p) (valid_sentences l) s m.
Proof.
  intros H Hm.
  destruct (best_match_scan p l _ _ _ _ H)
    as [(-> & _)|(_ & pre & post & E & Ss & Hall & Hpre)]; [lra|].
  exists pre, post. repeat split; auto.
  intros c Hc.
  assert (Hp : Sklearn.tokenize p <> []).
  { unfold processed_score in Ss.
    destruct (tfidf_cosine p (preprocess_text s)) as [x|] eqn:Es; [|discriminate].
    injection Ss as ->. apply (tfidf_cosine_nonzero _ _ _ Es). lra. }
  destruct (processed_score_total p c Hp) as [x Hx]. eauto.
Qed.

(** The inner loop only ever ends on its initial sentence or on a valid
    sentence of B. *)
Lemma best_match_valid (p : string) (l : list string) (m : R) (s : string) :
  best_match p l 0 "" = (m, s) -> 0 < m -> In s (valid_sentences l).
Proof.
  intros H Hm.
  destruct (best_match_first_best p l m s H Hm) as (pre & post & -> & _).
  apply in_elt.
Qed.

Lemma valid_sentences_In (l : list string) (s : string) :
  In s (valid_sentences l) <-> In s l /\ too_short s = false.
Proof.
  unfold valid_sentences. rewrite filter_In, negb_true_iff. tauto.
Qed.

(** What the outer loop of Tier 2 appends, for the sentences after a prefix
    already gone through. *)
Lemma compare_sentences_emitted (sentences2 : list string) (threshold : R)
    (rest : list string) :
  forall prefix : list string,
    Forall (fun f => exists k,
                emitted2 (prefix ++ rest)%list sentences2 threshold k f)
           (compare_sentences (length prefix) rest sentences2 threshold).
Proof.
  induction rest as [|sent1 rest IH]; intros prefix; simpl; [constructor|].
  assert (Hrest :
    Forall (fun f => exists k,
                emitted2 (prefix ++ sent1 :: rest)%list sentences2 threshold k f)
           (compare_sentences (S (length prefix)) rest sentences2 threshold)).
  { specialize (IH (prefix ++ [sent1])%list).
    rewrite <- app_assoc, length_app, Nat.add_1_r in IH. exact IH. }
  destruct (too_short sent1) eqn:Hshort; [exact Hrest|].
  destruct (best_match (preprocess_text sent1) sentences2 0 "")
    as [max_similarity matching_sentence] eqn:Hbest.
  destruct (Rge_dec max_similarity threshold) as [Hge|_]; [|exact Hrest].
  constructor; [|exact Hrest].
  exists (length prefix). unfold emitted2. simpl.
  rewrite Hbest. simpl.
  rewrite nth_error_app2, Nat.sub_diag by lia. repeat split; auto.
Qed.

(** The positions the outer loop of Tier 2 appends increase and stay within
    the sentences gone through. *)
Lemma compare_sentences_positions (sentences2 : list string) (threshold : R)
    (sentences1 : list string) :
  forall idx : nat,
    let found := compare_sentences idx sentences1 sentences2 threshold in
    StronglySorted lt (map Level2.position found) /\
    Forall (fun f => idx < Level2.position f <= idx + length sentences1)%nat found.
Proof.
  induction sentences1 as [|sent1 rest IH]; intros idx; simpl;
    [split; constructor|].
  destruct (IH (S idx)) as [Hs Hb].
  assert (Hb' : Forall (fun f => idx < Level2.position f
                                 <= idx + S (length rest))%nat
                       (compare_sentences (S idx) rest sentences2 threshold)).
  { eapply Forall_impl; [|exact Hb]. simpl. intros; lia. }
  destruct (too_short sent1); [now split|].
  destruct (best_match _ _ _ _) as [max_similarity matching_sentence].
  destruct (Rge_dec _ _); [|now split].
  simpl. split.
  - constructor; [exact Hs|].
    rewrite Forall_map. eapply Forall_impl; [|exact Hb]. simpl. intros; lia.
  - constructor; [simpl; lia|exact Hb'].
Qed.

(** ** Tier 3: the maximum and the loop *)

Lemma argmax_from_scan (l : list R) :
  forall (best_idx : nat) (best : R) (idx : nat),
    let r := argmax_from best_idx best idx l in
    (r = best_idx /\ forall z, In z l -> z <= best)
    \/
    (exists (k : nat) (y : R),
        r = (idx + k)%nat /\ nth_error l k = Some y /\ best < y /\
        (forall z, In z l -> z <= y) /\
        (forall j z, (j < k)%nat -> nth_error l j = Some z -> z < y)).
Proof.
  induction l as [|x l IH]; intros best_idx best idx; simpl.
  - left. split; [reflexivity|]. intros ? [].
  - destruct (Rgt_dec x best) as [Hgt|Hle].
    + destruct (IH idx x (S idx)) as [[-> Hall]|(k & y & -> & Hk & Hlt & Hall & Hpre)].
      * right. exists 0%nat, x. repeat split; auto; try lra; try lia.
        intros z [<-|Hz]; [lra|auto].
      * right. exists (S k), y. repeat split; auto; try lra; try lia.
        -- intros z [<-|Hz]; [lra|auto].
        -- intros [|j] z Hj Hz; simpl in Hz.
           ++ injection Hz as <-. lra.
           ++ apply (Hpre j); [lia|exact Hz].
    + destruct (IH best_idx best (S idx)) as [[-> Hall]|(k & y & -> & Hk & Hlt & Hall & Hpre)].
      * left. split; [reflexivity|]. intros z [<-|Hz]; [lra|auto].
      * right. exists (S k), y. repeat split; auto; try lra; try lia.
        -- intros z [<-|Hz]; [lra|auto].
        -- intros [|j] z Hj Hz; simpl in Hz.
           ++ injection Hz as <-. lra.
           ++ apply (Hpre j); [lia|exact Hz].
Qed.

(** [argmax] is the first index at which the maximum is reached. *)
Lemma argmax_spec (l : list R) :
  l <> [] ->
  exists y : R,
    nth_error l (argmax l) = Some y /\
    (forall z, In z l -> z <= y) /\
    (forall j z, (j < argmax l)%nat -> nth_error l j = Some z -> z < y).
Proof.
  destruct l as [|x l]; [congruence|]. intros _. unfold argmax.
  destruct (argmax_from_scan l 0%nat x 1%nat)
    as [[-> Hall]|(k & y & -> & Hk & Hlt & Hall & Hpre)].
  - exists x. repeat split; auto.
    + intros z [<-|Hz]; [lra|auto].
    + intros; lia.
  - exists y. repeat split; auto.
    + intros z [<-|Hz]; [lra|auto].
    + intros [|j] z Hj Hz; simpl in Hz.
      * injection Hz as <-. lra.
      * apply (Hpre j); [lia|exact Hz].
Qed.

Lemma first_best_argmax (f : string -> R) (l : list string) :
  l <> [] ->
  first_best (fun c => Some (f c)) l
             (nth (argmax (map f l)) l "") (nth (argmax (map f l)) (map f l) 0).
Proof.
  intros Hl.
  destruct (argmax_spec (map f l)) as (y & Hy & Hall & Hpre).
  { destruct l; [congruence|discriminate]. }
  set (i := argmax (map f l)) in *.
  rewrite nth_error_map in Hy.
  destruct (nth_error l i) as [b|] eqn:Hb; [|discriminate].
  injection Hy as <-.
  rewrite (nth_error_nth _ _ _ Hb).
  rewrite (nth_error_nth (map f l) i 0 (x := f b))
    by (now rewrite nth_error_map, Hb).
  destruct (nth_error_split l i Hb) as (pre & post & E & Hlen).
  exists pre, post. repeat split; auto.
  - intros c Hc. exists (f c). split; [reflexivity|].
    apply Hall, in_map, Hc.
  - intros c x Hc [= <-].
    destruct (In_nth_error pre c Hc) as [j Hj].
    assert (Hjlt : (j < length pre)%nat)
      by (apply nth_error_Some; congruence).
    apply (Hpre j); [lia|].
    rewrite nth_error_map, E, nth_error_app1, Hj by lia. reflexivity.
Qed.

Section Tier3Facts.

Variable model : SentenceModel.

Lemma compare_embeddings_emitted (valid_sentences2 : list string)
    (threshold : R) (rest : list string) :
  forall prefix : list string,
    Forall (fun f => exists k,
                emitted3 model (prefix ++ rest)%list valid_sentences2 threshold k f)
           (compare_embeddings model (length prefix) rest valid_sentences2
              (encode_all model valid_sentences2) threshold).
Proof.
  induction rest as [|sent1 rest IH]; intros prefix; simpl; [constructor|].
  assert (Hrest :
    Forall (fun f => exists k,
                emitted3 model (prefix ++ sent1 :: rest)%list valid_sentences2
                         threshold k f)
           (compare_embeddings model (S (length prefix)) rest valid_sentences2
              (encode_all model valid_sentences2) threshold)).
  { specialize (IH (prefix ++ [sent1])%list).
    rewrite <- app_assoc, length_app, Nat.add_1_r in IH. exact IH. }
  destruct (too_short sent1) eqn:Hshort; [exact Hrest|].
  destruct (Rge_dec _ _) as [Hge|_]; [|exact Hrest].
  constructor; [|exact Hrest].
  exists (length prefix). unfold emitted3. simpl.
  rewrite nth_error_app2, Nat.sub_diag by lia. repeat split; auto.
Qed.

Lemma compare_embeddings_positions (valid_sentences2 : list string)
    (embeddings2 : list (list R)) (threshold : R) (sentences1 : list string) :
  forall idx : nat,
    let found := compare_embeddings model idx sentences1 valid_sentences2
                   embeddings2 threshold in
    StronglySorted lt (map Level3.position found) /\
    Forall (fun f => idx < Level3.position f <= idx + length sentences1)%nat found.
Proof.
  induction sentences1 as [|sent1 rest IH]; intros idx; simpl;
    [split; constructor|].
  destruct (IH (S idx)) as [Hs Hb].
  assert (Hb' : Forall (fun f => idx < Level3.position f
                                 <= idx + S (length rest))%nat
                       (compare_embeddings model (S idx) rest valid_sentences2
                          embeddings2 threshold)).
  { eapply Forall_impl; [|exact Hb]. simpl. intros; lia. }
  destruct (too_short sent1); [now split|].
  destruct (Rge_dec _ _); [|now split].
  simpl. split.
  - constructor; [exact Hs|].
    rewrite Forall_map. eapply Forall_impl; [|exact Hb]. simpl. intros; lia.
  - constructor; [simpl; lia|exact Hb'].
Qed.

End Tier3Facts.

(** ** The results of Tier 2 and Tier 3 *)

Lemma level2_found (sent_tokenize : SentTokenizer) (text1 text2 : string)
    (threshold : R) :
  let r := level2_sentence_level sent_tokenize text1 text2 threshold in
  Level2.plagiarized_sentences r = [] \/
  (Level2.plagiarized_sentences r =
     compare_sentences 0 (sentences_of sent_tokenize text1)
                       (sentences_of sent_tokenize text2) threshold /\
   Level2.total_sentences r = length (sentences_of sent_tokenize text1)).
Proof.
  unfold level2_sentence_level, sentences_of.
  destruct (sent_tokenize text1) as [sentences1|]; [|now left].
  destruct (sent_tokenize text2) as [sentences2|]; [|now left].
  destruct (is_nil sentences1 || is_nil sentences2); [now left|].
  right. split; reflexivity.
Qed.

Lemma level3_found (model : SentenceModel) (sent_tokenize : SentTokenizer)
    (text1 text2 : string) (threshold : R) :
  let r := level3_semantic_similarity (Some model) sent_tokenize text1 text2
             threshold in
  let valid_sentences2 := valid_sentences (sentences_of sent_tokenize text2) in
  Level3.semantic_plagiarized_sentences r = [] \/
  (Level3.semantic_plagiarized_sentences r =
     compare_embeddings model 0 (sentences_of sent_tokenize text1)
                        valid_sentences2 (encode_all model valid_sentences2)
                        threshold /\
   Level3.total_sentences r = Some (length (sentences_of sent_tokenize text1)) /\
   valid_sentences2 <> []).
Proof.
  unfold level3_semantic_similarity, sentences_of.
  destruct (sent_tokenize text1) as [sentences1|]; [|now left].
  destruct (sent_tokenize text2) as [sentences2|]; [|now left].
  destruct (is_nil sentences1 || is_nil sentences2); [now left|].
  destruct (valid_sentences sentences2) as [|s l] eqn:E; [now left|].
  right. cbn [is_nil]. repeat split. discriminate.
Qed.

Lemma emitted2_best_aligned (sentences1 sentences2 : list string)
    (threshold : R) (k : nat) (f : Level2.found) :
  0 < threshold ->
  emitted2 sentences1 sentences2 threshold k f ->
  best_aligned lexical_score sentences1 sentences2 (Level2.position f)
    (Level2.sentence f) (Level2.matching_sentence f) (Level2.similarity f).
Proof.
  intros Hthr (Hk & Hpos & Hshort & H).
  destruct (best_match (preprocess_text (Level2.sentence f)) sentences2 0 "")
    as [m s] eqn:Hbest.
  simpl in H. destruct H as (Hge & Hsim & Hmatch).
  unfold best_aligned. rewrite Hpos, Nat.add_sub. repeat split; auto.
  exists m. rewrite Hmatch. split; [|exact Hsim].
  apply best_match_first_best; [exact Hbest|lra].
Qed.

Lemma emitted3_best_aligned (model : SentenceModel)
    (sentences1 sentences2 : list string) (threshold : R) (k : nat)
    (f : Level3.found) :
  valid_sentences sentences2 <> [] ->
  emitted3 model sentences1 (valid_sentences sentences2) threshold k f ->
  best_aligned (semantic_score model) sentences1 sentences2 (Level3.position f)
    (Level3.sentence f) (Level3.matching_sentence f)
    (Level3.semantic_similarity f).
Proof.
  intros Hne (Hk & Hpos & Hshort & H). simpl in H.
  destruct H as (Hge & Hsim & Hmatch & _).
  unfold best_aligned. rewrite Hpos, Nat.add_sub. repeat split; auto.
  unfold encode_all in *. rewrite map_map in *.
  eexists. rewrite Hmatch, Hsim. split; [|reflexivity].
  apply (first_best_argmax
           (fun c => Sklearn.cosine_similarity (encode model (Level3.sentence f))
                                               (encode model c))).
  exact Hne.
Qed.

Lemma level2_best_aligned (sent_tokenize : SentTokenizer)
    (text1 text2 : string) (threshold : R) :
  0 < threshold ->
  Forall (fun f =>
            best_aligned lexical_score
              (sentences_of sent_tokenize text1) (sentences_of sent_tokenize text2)
              (Level2.position f) (Level2.sentence f)
              (Level2.matching_sentence f) (Level2.similarity f))
         (Level2.plagiarized_sentences
            (level2_sentence_level sent_tokenize text1 text2 threshold)).
Proof.
  intros Hthr.
  destruct (level2_found sent_tokenize text1 text2 threshold)
    as [->|[-> _]]; [constructor|].
  eapply Forall_impl;
    [|apply (compare_sentences_emitted _ _ _ [])].
  intros f [k Hf]. now apply (emitted2_best_aligned _ _ threshold k).
Qed.

Lemma level3_best_aligned (sent_tokenize : SentTokenizer)
    (model : SentenceModel) (text1 text2 : string) (threshold : R) :
  Forall (fun f =>
            best_aligned (semantic_score model)
              (sentences_of sent_tokenize text1) (sentences_of sent_tokenize text2)
              (Level3.position f) (Level3.sentence f)
              (Level3.matching_sentence f) (Level3.semantic_similarity f))
         (Level3.semantic_plagiarized_sentences
            (level3_semantic_similarity (Some model) sent_tokenize text1 text2
               threshold)).
Proof.
  destruct (level3_found model sent_tokenize text1 text2 threshold)
    as [->|(-> & _ & Hne)]; [constructor|].
  eapply Forall_impl;
    [|apply (compare_embeddings_emitted model _ _ _ [])].
  intros f [k Hf]. now apply (emitted3_best_aligned _ _ _ threshold k).
Qed.

(** C1, as the code has it. With a positive threshold, every record of
    Tier 2, and with any threshold every record of Tier 3, pairs its sentence
    of A (of trimmed length at least 10) with the first sentence of B, among
    those of trimmed length at least 10, whose score against it is the
    greatest. *)
Theorem best_match_alignment (sent_tokenize : SentTokenizer)
    (model : SentenceModel) (text1 text2 : string) (threshold2 threshold3 : R) :
  0 < threshold2 ->
  Forall (fun f =>
            best_aligned lexical_score
              (sentences_of sent_tokenize text1) (sentences_of sent_tokenize text2)
              (Level2.position f) (Level2.sentence f)
              (Level2.matching_sentence f) (Level2.similarity f))
         (Level2.plagiarized_sentences
            (level2_sentence_level sent_tokenize text1 text2 threshold2))
  /\
  Forall (fun f =>
            best_aligned (semantic_score model)
              (sentences_of sent_tokenize text1) (sentences_of sent_tokenize text2)
              (Level3.position f) (Level3.sentence f)
              (Level3.matching_sentence f) (Level3.semantic_similarity f))
         (Level3.semantic_plagiarized_sentences
            (level3_semantic_similarity (Some model) sent_tokenize text1 text2
               threshold3)).
Proof.
  intros Hthr. split.
  - now apply level2_best_aligned.
  - apply level3_best_aligned.
Qed.

Lemma best_match_alignment_witness :
  Forall (fun f =>
            best_aligned lexical_score
              (sentences_of Nltk.plain_sent_tokenize "The quick brown fox jumps. It is fast.")
              (sentences_of Nltk.plain_sent_tokenize "A fox jumps high. The quick brown fox jumps.")
              (Level2.position f) (Level2.sentence f)
              (Level2.matching_sentence f) (Level2.similarity f))
         (Level2.plagiarized_sentences
            (level2_sentence_level Nltk.plain_sent_tokenize
               "The quick brown fox jumps. It is fast."
               "A fox jumps high. The quick brown fox jumps." 0.7))
  /\
  Forall (fun f =>
            best_aligned (semantic_score length_model)
              (sentences_of Nltk.plain_sent_tokenize "The quick brown fox jumps. It is fast.")
              (sentences_of Nltk.plain_sent_tokenize "A fox jumps high. The quick brown fox jumps.")
              (Level3.position f) (Level3.sentence f)
              (Level3.matching_sentence f) (Level3.semantic_similarity f))
         (Level3.semantic_plagiarized_sentences
            (level3_semantic_similarity (Some length_model) Nltk.plain_sent_tokenize
               "The quick brown fox jumps. It is fast."
               "A fox jumps high. The quick brown fox jumps." 0.75)).
Proof.
  apply (best_match_alignment Nltk.plain_sent_tokenize length_model
           "The quick brown fox jumps. It is fast."
           "A fox jumps high. The quick brown fox jumps." 0.7 0.75).
  lra.
Defined.

(** ** Tier 2 on concrete sentences *)

Lemma disjoint_tokens (ta tb : list string) :
  forallb (fun t => negb (existsb (String.eqb t) tb)) ta = true ->
  forall t, In t ta -> ~ In t tb.
Proof.
  intros H t Ha Hb. rewrite forallb_forall in H. specialize (H t Ha).
  apply existsb_eqb_In in Hb. now rewrite Hb in H.
Qed.

(** One valid sentence of B: the inner loop keeps it when its score is above
    zero, and stays at its start otherwise. *)
Lemma best_match_single (p sent2 : string) (x : R) :
  too_short sent2 = false ->
  tfidf_cosine p (preprocess_text sent2) = Ok x ->
  best_match p [sent2] 0 "" = if Rgt_dec x 0 then (x, sent2) else (0, "").
Proof.
  intros Hs Hx. simpl. rewrite Hs, Hx. now destruct (Rgt_dec x 0).
Qed.

(** C1 fails as stated for Tier 2 with the threshold 0: no sentence of B
    scores above the initial maximum 0, the record is made all the same, and
    its matching sentence is the empty string, which is no sentence of B. *)
Lemma best_match_alignment_counterexample :
  Level2.plagiarized_sentences
    (level2_sentence_level Nltk.plain_sent_tokenize
       "Alpha beta gamma delta." "Omega sigma kappa theta." 0) =
  [ {| Level2.sentence := "Alpha beta gamma delta.";
       Level2.similarity := 0;
       Level2.matching_sentence := "";
       Level2.position := 1 |} ]
  /\ ~ In "" (valid_sentences
                (sentences_of Nltk.plain_sent_tokenize "Omega sigma kappa theta.")).
Proof.
  split.
  - unfold level2_sentence_level.
    change (Nltk.plain_sent_tokenize "Alpha beta gamma delta.")
      with (Ok ["Alpha beta gamma delta."]).
    change (Nltk.plain_sent_tokenize "Omega sigma kappa theta.")
      with (Ok ["Omega sigma kappa theta."]).
    cbn [is_nil orb Level2.plagiarized_sentences]. unfold compare_sentences.
    change (too_short "Alpha beta gamma delta.") with false. cbv beta iota.
    rewrite (best_match_single _ _ 0); [|reflexivity|].
    + destruct (Rgt_dec 0 0) as [H|_]; [lra|].
      destruct (Rge_dec 0 0) as [_|H]; [|lra].
      now rewrite round2_0.
    + rewrite tfidf_cosine_returns by (left; vm_compute; discriminate).
      f_equal. apply lexical_cosine_disjoint, disjoint_tokens. reflexivity.
  - vm_compute. intros [H|[]]. discriminate H.
Qed.

(** ** Records, thresholds and positions *)

Lemma level2_emitted (sent_tokenize : SentTokenizer) (text1 text2 : string)
    (threshold : R) :
  Forall (fun f => exists k,
              emitted2 (sentences_of sent_tokenize text1)
                       (sentences_of sent_tokenize text2) threshold k f)
         (Level2.plagiarized_sentences
            (level2_sentence_level sent_tokenize text1 text2 threshold)).
Proof.
  destruct (level2_found sent_tokenize text1 text2 threshold)
    as [->|[-> _]]; [constructor|].
  apply (compare_sentences_emitted _ _ _ []).
Qed.

Lemma level3_emitted (model : SentenceModel) (sent_tokenize : SentTokenizer)
    (text1 text2 : string) (threshold : R) :
  Forall (fun f => exists k,
              emitted3 model (sentences_of sent_tokenize text1)
                       (valid_sentences (sentences_of sent_tokenize text2))
                       threshold k f)
         (Level3.semantic_plagiarized_sentences
            (level3_semantic_similarity (Some model) sent_tokenize text1 text2
               threshold)).
Proof.
  destruct (level3_found model sent_tokenize text1 text2 threshold)
    as [->|(-> & _)]; [constructor|].
  apply (compare_embeddings_emitted model _ _ _ []).
Qed.

Lemma percentage_ge (k : Z) (x : R) :
  x >= IZR k / 10000 -> IZR k / 100 <= round2 (x * 100).
Proof. intros H. apply round2_ge. lra. Qed.

Lemma emitted3_score (model : SentenceModel)
    (sentences1 valid_sentences2 : list string) (threshold : R) (k : nat)
    (f : Level3.found) :
  valid_sentences2 <> [] ->
  emitted3 model sentences1 valid_sentences2 threshold k f ->
  exists x : R,
    semantic_score model (Level3.sentence f) (Level3.matching_sentence f) = Some x /\
    x >= threshold /\
    Level3.semantic_similarity f = round2 (x * 100).
Proof.
  intros Hne (_ & _ & _ & H). simpl in H.
  destruct H as (Hge & Hsim & Hmatch & _).
  unfold encode_all in *. rewrite map_map in *.
  destruct (first_best_argmax
              (fun c => Sklearn.cosine_similarity
                          (encode model (Level3.sentence f)) (encode model c))
              valid_sentences2 Hne) as (_ & _ & _ & Hscore & _).
  rewrite <- Hmatch in Hscore. eauto.
Qed.

(** C3. Every record of Tier 2 and of Tier 3 is made from a best score that
    is at least the threshold, whatever the threshold; with the thresholds
    0.70 and 0.75 the percentage it shows is at least 70, respectively 75. *)
Theorem matches_reach_threshold (sentence_model : option SentenceModel)
    (sent_tokenize : SentTokenizer) (text1 text2 : string) :
  (forall threshold : R,
      Forall (fun f => exists x : R,
                  x = fst (best_match (preprocess_text (Level2.sentence f))
                                      (sentences_of sent_tokenize text2) 0 "") /\
                  x >= threshold /\
                  Level2.similarity f = round2 (x * 100))
             (Level2.plagiarized_sentences
                (level2_sentence_level sent_tokenize text1 text2 threshold)))
  /\
  (forall threshold : R,
      Forall (fun f => exists x : R,
                  semantic_score_of sentence_model (Level3.sentence f)
                                    (Level3.matching_sentence f) = Some x /\
                  x >= threshold /\
                  Level3.semantic_similarity f = round2 (x * 100))
             (Level3.semantic_plagiarized_sentences
                (level3_semantic_similarity sentence_model sent_tokenize
                   text1 text2 threshold)))
  /\
  Forall (fun f => 70 <= Level2.similarity f)
         (Level2.plagiarized_sentences
            (level2_sentence_level sent_tokenize text1 text2 0.7))
  /\
  Forall (fun f => 75 <= Level3.semantic_similarity f)
         (Level3.semantic_plagiarized_sentences
            (level3_semantic_similarity sentence_model sent_tokenize
               text1 text2 0.75)).
Proof.
  assert (H2 : forall threshold : R,
      Forall (fun f => exists x : R,
                  x = fst (best_match (preprocess_text (Level2.sentence f))
                                      (sentences_of sent_tokenize text2) 0 "") /\
                  x >= threshold /\
                  Level2.similarity f = round2 (x * 100))
             (Level2.plagiarized_sentences
                (level2_sentence_level sent_tokenize text1 text2 threshold))).
  { intros threshold.
    eapply Forall_impl; [|apply level2_emitted].
    intros f (k & _ & _ & _ & H). simpl in H. destruct H as (Hge & Hsim & _).
    eauto. }
  assert (H3 : forall threshold : R,
      Forall (fun f => exists x : R,
                  semantic_score_of sentence_model (Level3.sentence f)
                                    (Level3.matching_sentence f) = Some x /\
                  x >= threshold /\
                  Level3.semantic_similarity f = round2 (x * 100))
             (Level3.semantic_plagiarized_sentences
                (level3_semantic_similarity sentence_model sent_tokenize
                   text1 text2 threshold))).
  { intros threshold. destruct sentence_model as [model|]; [|constructor].
    pose proof (level3_emitted model sent_tokenize text1 text2 threshold) as He.
    destruct (level3_found model sent_tokenize text1 text2 threshold)
      as [->|(_ & _ & Hne)]; [constructor|].
    eapply Forall_impl; [|exact He].
    intros f [k Hf]. exact (emitted3_score _ _ _ _ _ _ Hne Hf). }
  repeat split; auto.
  - eapply Forall_impl; [|apply (H2 0.7)].
    intros f (x & _ & Hge & ->).
    replace 70 with (IZR 7000 / 100) by lra. apply percentage_ge. lra.
  - eapply Forall_impl; [|apply (H3 0.75)].
    intros f (x & _ & Hge & ->).
    replace 75 with (IZR 7500 / 100) by lra. apply percentage_ge. lra.
Qed.

(** C8. In the records of Tier 2 and of Tier 3 the positions are counted from
    1, increase strictly in the order of the sentences of A, name the place of
    the recorded sentence in A, and never exceed the total of the result. *)
Theorem positions_increasing (sentence_model : option SentenceModel)
    (sent_tokenize : SentTokenizer) (text1 text2 : string)
    (threshold2 threshold3 : R) :
  let r2 := level2_sentence_level sent_tokenize text1 text2 threshold2 in
  let r3 := level3_semantic_similarity sentence_model sent_tokenize text1 text2
              threshold3 in
  (StronglySorted lt (map Level2.position (Level2.plagiarized_sentences r2)) /\
   Forall (fun f =>
             (1 <= Level2.position f <= Level2.total_sentences r2)%nat /\
             nth_error (sentences_of sent_tokenize text1) (Level2.position f - 1)
             = Some (Level2.sentence f))
          (Level2.plagiarized_sentences r2))
  /\
  (StronglySorted lt
     (map Level3.position (Level3.semantic_plagiarized_sentences r3)) /\
   Forall (fun f =>
             (exists n : nat,
                 Level3.total_sentences r3 = Some n /\
                 (1 <= Level3.position f <= n)%nat) /\
             nth_error (sentences_of sent_tokenize text1) (Level3.position f - 1)
             = Some (Level3.sentence f))
          (Level3.semantic_plagiarized_sentences r3)).
Proof.
  intros r2 r3. split.
  - pose proof (level2_emitted sent_tokenize text1 text2 threshold2) as He.
    fold r2 in He.
    destruct (level2_found sent_tokenize text1 text2 threshold2) as [E|[E Et]];
      fold r2 in E; [rewrite E; split; constructor|].
    fold r2 in Et.
    destruct (compare_sentences_positions
                (sentences_of sent_tokenize text2) threshold2
                (sentences_of sent_tokenize text1) 0) as [Hs Hb].
    rewrite <- E in Hs, Hb. split; [exact Hs|].
    rewrite Forall_forall in *. intros f Hf.
    destruct (He f Hf) as (k & Hk & Hpos & _). specialize (Hb f Hf).
    rewrite Et. split; [simpl in Hb; lia|].
    now rewrite Hpos, Nat.add_sub.
  - destruct sentence_model as [model|]; [|split; constructor].
    pose proof (level3_emitted model sent_tokenize text1 text2 threshold3) as He.
    fold r3 in He.
    destruct (level3_found model sent_tokenize text1 text2 threshold3)
      as [E|(E & Et & _)];
      fold r3 in E; [rewrite E; split; constructor|].
    fold r3 in Et.
    destruct (compare_embeddings_positions model
                (valid_sentences (sentences_of sent_tokenize text2))
                (encode_all model (valid_sentences (sentences_of sent_tokenize text2)))
                threshold3 (sentences_of sent_tokenize text1) 0) as [Hs Hb].
    rewrite <- E in Hs, Hb. split; [exact Hs|].
    rewrite Forall_forall in *. intros f Hf.
    destruct (He f Hf) as (k & Hk & Hpos & _). specialize (Hb f Hf).
    split.
    + eexists. split; [exact Et|]. simpl in Hb. lia.
    + now rewrite Hpos, Nat.add_sub.
Qed.

Lemma first_best_valid (score : string -> option R) (sentences2 : list string)
    (b : string) (m : R) :
  first_best score (valid_sentences sentences2) b m -> too_short b = false.
Proof.
  intros (pre & post & E & _).
  assert (H : In b (valid_sentences sentences2)) by (rewrite E; apply in_elt).
  now apply valid_sentences_In in H.
Qed.

Lemma best_aligned_valid (score : string -> string -> option R)
    (sentences1 sentences2 : list string) (position : nat)
    (sentence matching : string) (percentage : R) :
  best_aligned score sentences1 sentences2 position sentence matching percentage ->
  too_short sentence = false /\ too_short matching = false.
Proof.
  intros (_ & Hs & m & Hb & _). split; [exact Hs|].
  exact (first_best_valid _ _ _ _ Hb).
Qed.

(** C9. With the thresholds 0.70 and 0.75, no sentence of trimmed length
    below 10 is the sentence or the matching sentence of a record of Tier 2
    or of Tier 3. *)
Theorem short_sentences_excluded (sentence_model : option SentenceModel)
    (sent_tokenize : SentTokenizer) (text1 text2 : string) :
  Forall (fun f =>
            (10 <= PyStr.len (PyStr.strip (Level2.sentence f)))%nat /\
            (10 <= PyStr.len (PyStr.strip (Level2.matching_sentence f)))%nat)
         (Level2.plagiarized_sentences
            (level2_sentence_level sent_tokenize text1 text2 0.7))
  /\
  Forall (fun f =>
            (10 <= PyStr.len (PyStr.strip (Level3.sentence f)))%nat /\
            (10 <= PyStr.len (PyStr.strip (Level3.matching_sentence f)))%nat)
         (Level3.semantic_plagiarized_sentences
            (level3_semantic_similarity sentence_model sent_tokenize
               text1 text2 0.75)).
Proof.
  assert (Hlen : forall s, too_short s = false ->
                           (10 <= PyStr.len (PyStr.strip s))%nat).
  { intros s H. unfold too_short in H. now apply Nat.ltb_ge in H. }
  split.
  - eapply Forall_impl; [|apply level2_best_aligned; lra].
    intros f Hf. apply best_aligned_valid in Hf as [H1 H2]. auto.
  - destruct sentence_model as [model|]; [|constructor].
    eapply Forall_impl; [|apply level3_best_aligned].
    intros f Hf. apply best_aligned_valid in Hf as [H1 H2]. auto.
Qed.

(** ** The empty-result shape of Tier 2 *)

(** C2, as the code has it. When either document has no sentence, Tier 2
    returns without error an empty list and the count 0; its total is the
    number of sentences of the first document, which is 0 only when that
    document is the one without sentence. *)
Theorem level2_no_sentences (sent_tokenize : SentTokenizer)
    (text1 text2 : string) (threshold : R) (sentences1 sentences2 : list string) :
  sent_tokenize text1 = Ok sentences1 ->
  sent_tokenize text2 = Ok sentences2 ->
  sentences1 = [] \/ sentences2 = [] ->
  level2_sentence_level sent_tokenize text1 text2 threshold =
  {| Level2.method := "Sentence-Level Detection";
     Level2.plagiarized_sentences := [];
     Level2.total_sentences := length sentences1;
     Level2.plagiarized_count := 0;
     Level2.threshold := None;
     Level2.error := None |}.
Proof.
  intros H1 H2 Hnil. unfold level2_sentence_level. rewrite H1, H2.
  destruct Hnil as [->| ->]; [reflexivity|].
  now rewrite orb_true_r.
Qed.

Lemma level2_no_sentences_witness :
  level2_sentence_level Nltk.plain_sent_tokenize
    "It rained. It poured all day long." "   " 0.7 =
  {| Level2.method := "Sentence-Level Detection";
     Level2.plagiarized_sentences := [];
     Level2.total_sentences := 2;
     Level2.plagiarized_count := 0;
     Level2.threshold := None;
     Level2.error := None |}.
Proof.
  apply (level2_no_sentences Nltk.plain_sent_tokenize
           "It rained. It poured all day long." "   " 0.7
           ["It rained."; "It poured all day long."] []).
  - reflexivity.
  - reflexivity.
  - right. reflexivity.
Defined.

(** C2 fails as stated: the second document has no sentence, the first has
    one, and the total of the result is 1. *)
Lemma level2_no_sentences_counterexample :
  sentences_of Nltk.plain_sent_tokenize "" = [] /\
  Level2.total_sentences
    (level2_sentence_level Nltk.plain_sent_tokenize
       "Machine learning algorithms can process vast amounts of data." "" 0.7)
  = 1%nat.
Proof. split; reflexivity. Qed.

(** ** Tier 3 without its model, and the endpoint *)

(** C5. Without the embedding model, Tier 3 returns its method name, an
    error message and an empty list; a valid request to the endpoint is then
    answered with status 200, the results of Tier 1 and Tier 2, and a summary
    whose count of semantic records is 0. *)
Theorem model_unavailable (sent_tokenize : SentTokenizer) :
  (forall (text1 text2 : string) (threshold : R),
      level3_semantic_similarity None sent_tokenize text1 text2 threshold =
      {| Level3.method := "Semantic Similarity (Transformer)";
         Level3.semantic_plagiarized_sentences := [];
         Level3.total_sentences := None;
         Level3.semantic_plagiarized_count := None;
         Level3.threshold := None;
         Level3.explanation := None;
         Level3.error := Some "Sentence transformer model not available" |})
  /\
  (forall (request : Http.request) (data : Http.json) (text1 text2 : string),
      Http.verb_of request = Http.POST ->
      Http.get_json request = Ok data ->
      Http.falsy data = false ->
      Http.strip (Http.get (Http.fields_of data) "text1" (Http.JString "")) = Ok text1 ->
      Http.strip (Http.get (Http.fields_of data) "text2" (Http.JString "")) = Ok text2 ->
      (10 <= PyStr.len text1)%nat ->
      (10 <= PyStr.len text2)%nat ->
      check_plagiarism None sent_tokenize request =
      {| Http.status := 200;
         Http.body :=
           Http.Success
             (level1_tfidf_similarity text1 text2)
             (level2_sentence_level sent_tokenize text1 text2 0.7)
             level3_unavailable
             {| Http.overall_similarity :=
                  Level1.similarity_percentage (level1_tfidf_similarity text1 text2);
                Http.total_plagiarized_sentences :=
                  Level2.plagiarized_count
                    (level2_sentence_level sent_tokenize text1 text2 0.7);
                Http.semantic_plagiarized_sentences := 0;
                Http.text1_length := PyStr.len text1;
                Http.text2_length := PyStr.len text2 |} |}).
Proof.
  split; [reflexivity|].
  intros request data text1 text2 Hv Hj Hd H1 H2 L1 L2.
  unfold check_plagiarism. rewrite Hv, Hj, Hd, H1, H2.
  assert (E1 : PyStr.is_empty text1 = false)
    by (destruct text1; [simpl in L1; lia|reflexivity]).
  assert (E2 : PyStr.is_empty text2 = false)
    by (destruct text2; [simpl in L2; lia|reflexivity]).
  rewrite E1, E2. cbn [orb].
  apply Nat.ltb_ge in L1, L2. rewrite L1, L2. reflexivity.
Qed.

Lemma model_unavailable_witness :
  check_plagiarism None Nltk.plain_sent_tokenize
    {| Http.verb_of := Http.POST;
       Http.get_json :=
         Ok (Http.JObject
               [("text1", Http.JString "  The quick brown fox jumps over the lazy dog. ");
                ("text2", Http.JString "A fast auburn fox leaps above the sleepy canine.")]) |}
  =
  {| Http.status := 200;
     Http.body :=
       Http.Success
         (level1_tfidf_similarity
            "The quick brown fox jumps over the lazy dog."
            "A fast auburn fox leaps above the sleepy canine.")
         (level2_sentence_level Nltk.plain_sent_tokenize
            "The quick brown fox jumps over the lazy dog."
            "A fast auburn fox leaps above the sleepy canine." 0.7)
         level3_unavailable
         {| Http.overall_similarity :=
              Level1.similarity_percentage
                (level1_tfidf_similarity
                   "The quick brown fox jumps over the lazy dog."
                   "A fast auburn fox leaps above the sleepy canine.");
            Http.total_plagiarized_sentences :=
              Level2.plagiarized_count
                (level2_sentence_level Nltk.plain_sent_tokenize
                   "The quick brown fox jumps over the lazy dog."
                   "A fast auburn fox leaps above the sleepy canine." 0.7);
            Http.semantic_plagiarized_sentences := 0;
            Http.text1_length := 44;
            Http.text2_length := 48 |} |}.
Proof.
  apply (proj2 (model_unavailable Nltk.plain_sent_tokenize)
           _ (Http.JObject
                [("text1", Http.JString "  The quick brown fox jumps over the lazy dog. ");
                 ("text2", Http.JString "A fast auburn fox leaps above the sleepy canine.")])
           "The quick brown fox jumps over the lazy dog."
           "A fast auburn fox leaps above the sleepy canine.");
    try reflexivity; apply Nat.leb_le; reflexivity.
Defined.

(** ** Examples *)

Example preprocess_text_ex1 :
  preprocess_text "  Hello,   World!  It's ME. " = "hello world its me".
Proof. reflexivity. Qed.

Example strip_ex1 : PyStr.strip "  a b  " = "a b".
Proof. reflexivity. Qed.

Example plain_sent_tokenize_ex1 :
  Nltk.plain_sent_tokenize "The cat sat on the mat. Was it warm?  Yes!" =
  Ok ["The cat sat on the mat."; "Was it warm?"; "Yes!"].
Proof. reflexivity. Qed.

Example plain_sent_tokenize_ex2 : Nltk.plain_sent_tokenize "" = Ok [].
Proof. reflexivity. Qed.

Example tokenize_ex1 :
  Sklearn.tokenize "a quick brown_fox 42 x" = ["quick"; "brown_fox"; "42"].
Proof. reflexivity. Qed.

Example vocabulary_ex1 :
  Sklearn.vocabulary [["the"; "cat"; "the"]; ["dog"; "cat"]] = ["cat"; "dog"; "the"].
Proof. reflexivity. Qed.

(** One step of the inner loop of Tier 2 on a valid sentence with a score. *)
Lemma best_match_cons (p sent2 : string) (rest : list string) (m0 : R)
    (s0 : string) (x : R) :
  too_short sent2 = false ->
  tfidf_cosine p (preprocess_text sent2) = Ok x ->
  best_match p (sent2 :: rest) m0 s0 =
  if Rgt_dec x m0 then best_match p rest x sent2 else best_match p rest m0 s0.
Proof. intros Hs Hx. simpl. now rewrite Hs, Hx. Qed.

Lemma tfidf_cosine_same (a : string) :
  Sklearn.tokenize a <> [] -> tfidf_cosine a a = Ok 1.
Proof.
  intros H. rewrite tfidf_cosine_returns by (now left).
  now rewrite lexical_cosine_self.
Qed.

Lemma tfidf_cosine_apart (a b : string) :
  Sklearn.tokenize a <> [] ->
  forallb (fun t => negb (existsb (String.eqb t) (Sklearn.tokenize b)))
          (Sklearn.tokenize a) = true ->
  tfidf_cosine a b = Ok 0.
Proof.
  intros H D. rewrite tfidf_cosine_returns by (now left).
  f_equal. now apply lexical_cosine_disjoint, disjoint_tokens.
Qed.

(** Two sentences without a common word, compared with themselves: Tier 2
    records both, each with itself and the percentage 100. *)
Example level2_same_text :
  level2_sentence_level Nltk.plain_sent_tokenize
    "The quick brown fox jumps. Machine learning is fun today."
    "The quick brown fox jumps. Machine learning is fun today." 0.7 =
  {| Level2.method := "Sentence-Level Detection";
     Level2.plagiarized_sentences :=
       [ {| Level2.sentence := "The quick brown fox jumps.";
            Level2.similarity := 100;
            Level2.matching_sentence := "The quick brown fox jumps.";
            Level2.position := 1 |};
         {| Level2.sentence := "Machine learning is fun today.";
            Level2.similarity := 100;
            Level2.matching_sentence := "Machine learning is fun today.";
            Level2.position := 2 |} ];
     Level2.total_sentences := 2;
     Level2.plagiarized_count := 2;
     Level2.threshold := Some (0.7 * 100);
     Level2.error := None |}.
Proof.
  pose (s1 := "The quick brown fox jumps.").
  pose (s2 := "Machine learning is fun today.").
  assert (B1 : best_match (preprocess_text s1) [s1; s2] 0 "" = (1, s1)).
  { rewrite (best_match_cons _ s1 _ _ _ 1);
      [|reflexivity|apply tfidf_cosine_same; vm_compute; discriminate].
    destruct (Rgt_dec 1 0) as [_|H]; [|lra].
    rewrite (best_match_cons _ s2 _ _ _ 0);
      [|reflexivity
       |apply tfidf_cosine_apart; [vm_compute; discriminate|reflexivity]].
    destruct (Rgt_dec 0 1) as [H|_]; [lra|]. reflexivity. }
  assert (B2 : best_match (preprocess_text s2) [s1; s2] 0 "" = (1, s2)).
  { rewrite (best_match_cons _ s1 _ _ _ 0);
      [|reflexivity
       |apply tfidf_cosine_apart; [vm_compute; discriminate|reflexivity]].
    destruct (Rgt_dec 0 0) as [H|_]; [lra|].
    rewrite (best_match_cons _ s2 _ _ _ 1);
      [|reflexivity|apply tfidf_cosine_same; vm_compute; discriminate].
    destruct (Rgt_dec 1 0) as [_|H]; [|lra]. reflexivity. }
  assert (E : compare_sentences 0 [s1; s2] [s1; s2] 0.7 =
              [ {| Level2.sentence := s1; Level2.similarity := 100;
                   Level2.matching_sentence := s1; Level2.position := 1 |};
                {| Level2.sentence := s2; Level2.similarity := 100;
                   Level2.matching_sentence := s2; Level2.position := 2 |} ]).
  { unfold compare_sentences.
    change (too_short s1) with false. change (too_short s2) with false.
    cbv beta iota. rewrite B1, B2.
    destruct (Rge_dec 1 0.7) as [_|H]; [|lra].
    now rewrite round2_100. }
  unfold level2_sentence_level.
  change (Nltk.plain_sent_tokenize
            "The quick brown fox jumps. Machine learning is fun today.")
    with (Ok [s1; s2]).
  cbn [is_nil orb]. rewrite E. reflexivity.
Qed.

(** The same sentence on both sides: Tier 3 records it with the
    percentage 100. *)
Example level3_same_sentence :
  Level3.semantic_plagiarized_sentences
    (level3_semantic_similarity (Some length_model) Nltk.plain_sent_tokenize
       "The quick brown fox jumps." "The quick brown fox jumps." 0.75) =
  [ {| Level3.sentence := "The quick brown fox jumps.";
       Level3.semantic_similarity := 100;
       Level3.matching_sentence := "The quick brown fox jumps.";
       Level3.position := 1;
       Level3.type := "semantic" |} ].
Proof.
  pose (s := "The quick brown fox jumps.").
  assert (C : Sklearn.cosine_similarity (encode length_model s)
                                        (encode length_model s) = 1).
  { apply cosine_similarity_self. unfold length_model, encode.
    rewrite !dot_cons. unfold Sklearn.dot. simpl fold_right.
    pose proof (pos_INR (String.length s)). nra. }
  unfold level3_semantic_similarity.
  change (Nltk.plain_sent_tokenize "The quick brown fox jumps.") with (Ok [s]).
  cbn [is_nil orb]. change (valid_sentences [s]) with [s].
  cbn [is_nil Level3.semantic_plagiarized_sentences].
  unfold compare_embeddings, encode_all.
  change (too_short s) with false. cbn [map nth]. rewrite C.
  unfold argmax, argmax_from. cbn [nth].
  destruct (Rge_dec 1 0.75) as [_|H]; [|lra].
  now rewrite round2_100.
Qed.

(** Without the Punkt resource the tokenizer raises, and Tier 2 reports the
    fault in its result. *)
Example level2_without_punkt (text1 text2 : string) (threshold : R) :
  level2_sentence_level Nltk.missing_sent_tokenize text1 text2 threshold =
  {| Level2.method := "Sentence-Level Detection";
     Level2.plagiarized_sentences := [];
     Level2.total_sentences := 0;
     Level2.plagiarized_count := 0;
     Level2.threshold := None;
     Level2.error := Some "Resource punkt not found." |}.
Proof. reflexivity. Qed.

(** * Further properties of the pipeline *)

(** ** The range of the scores *)

Section ScoreRange.

Import Sklearn.

Lemma dot_cauchy_schwarz (u : list R) :
  forall v : list R, dot u v * dot u v <= dot u u * dot v v.
Proof.
  induction u as [|x u IH]; intros [|y v].
  - unfold dot; simpl; lra.
  - pose proof (dot_self_nonneg (y :: v)). unfold dot at 1 2 3; simpl. lra.
  - rewrite dot_nil_r. pose proof (dot_self_nonneg (x :: u)).
    replace (dot [] []) with 0 by reflexivity. lra.
  - rewrite !dot_cons. specialize (IH v).
    pose proof (dot_self_nonneg u) as Ha. pose proof (dot_self_nonneg v) as Hb.
    set (d := dot u v) in *. set (a := dot u u) in *. set (b := dot v v) in *.
    assert (Hmix : 2 * (x * y * d) <= x * x * b + y * y * a).
    { destruct (Req_dec a 0) as [Ha0|Ha0].
      - assert (Hd : d = 0) by nra. rewrite Hd, Ha0. nra.
      - assert (Hpos : 0 < a) by lra.
        assert (Hs : 0 <= a * (x * x * b + y * y * a - 2 * (x * y * d))).
        { replace (a * (x * x * b + y * y * a - 2 * (x * y * d)))
            with ((y * a - x * d) * (y * a - x * d) + x * x * (a * b - d * d))
            by ring.
          assert (0 <= x * x * (a * b - d * d)) by (apply Rmult_le_pos; nra).
          pose proof (Rle_0_sqr (y * a - x * d)) as Hq. unfold Rsqr in Hq.
          lra. }
        set (e := x * x * b + y * y * a - 2 * (x * y * d)) in *.
        assert (0 <= e) by nra. unfold e in *. lra. }
    nra.
Qed.

Lemma unit_factor_pos (d : R) : 0 < unit_factor d.
Proof.
  unfold unit_factor. destruct (Req_dec_T (sqrt d) 0) as [_|Hn]; [lra|].
  apply Rinv_0_lt_compat. pose proof (sqrt_pos d). lra.
Qed.

Lemma cosine_similarity_formula (u v : list R) :
  cosine_similarity u v =
  unit_factor (dot u u) * unit_factor (dot v v) * dot u v.
Proof.
  unfold cosine_similarity. now rewrite !normalize_scale, dot_scale.
Qed.

Lemma dot_zero_l (u v : list R) : dot u u = 0 -> dot u v = 0.
Proof.
  intros H. pose proof (dot_cauchy_schwarz u v) as CS. rewrite H in CS. nra.
Qed.

(** The cosine similarity of two rows is at most 1. *)
Lemma cosine_similarity_le_1 (u v : list R) : cosine_similarity u v <= 1.
Proof.
  rewrite cosine_similarity_formula.
  pose proof (dot_self_nonneg u) as Hu. pose proof (dot_self_nonneg v) as Hv.
  pose proof (dot_cauchy_schwarz u v) as CS.
  unfold unit_factor.
  destruct (Req_dec_T (sqrt (dot u u)) 0) as [Eu|Nu].
  { apply sqrt_eq_0 in Eu; [|exact Hu]. rewrite (dot_zero_l u v Eu). lra. }
  destruct (Req_dec_T (sqrt (dot v v)) 0) as [Ev|Nv].
  { apply sqrt_eq_0 in Ev; [|exact Hv].
    rewrite (dot_comm u v), (dot_zero_l v u Ev). lra. }
  pose proof (sqrt_pos (dot u u)) as Pu. pose proof (sqrt_pos (dot v v)) as Pv.
  pose proof (sqrt_sqrt _ Hu) as Su. pose proof (sqrt_sqrt _ Hv) as Sv.
  set (su := sqrt (dot u u)) in *. set (sv := sqrt (dot v v)) in *.
  assert (Hprod : 0 < su * sv) by (apply Rmult_lt_0_compat; lra).
  assert (Hle : dot u v <= su * sv).
  { destruct (Rle_dec (dot u v) (su * sv)) as [H|H]; [exact H|].
    exfalso. assert (Hsq : su * sv * (su * sv) = dot u u * dot v v) by nra.
    nra. }
  replace (/ su * / sv * dot u v) with (dot u v * / (su * sv)) by (field; lra).
  pose proof (Rinv_0_lt_compat _ Hprod) as Hk.
  assert (Hone : su * sv * / (su * sv) = 1) by (field; lra).
  set (k := / (su * sv)) in *.
  assert (Hstep : 0 <= (su * sv - dot u v) * k) by (apply Rmult_le_pos; lra).
  lra.
Qed.

End ScoreRange.

Section LexicalRange.

Import Sklearn.

Lemma dot_nonneg (u : list R) :
  forall v : list R,
    Forall (fun x => 0 <= x) u -> Forall (fun x => 0 <= x) v -> 0 <= dot u v.
Proof.
  induction u as [|x u IH]; intros [|y v] Hu Hv;
    try (unfold dot; simpl; lra).
  inversion Hu; inversion Hv; subst. rewrite dot_cons.
  specialize (IH v H2 H6). nra.
Qed.

Lemma cosine_similarity_nonneg (u v : list R) :
  Forall (fun x => 0 <= x) u -> Forall (fun x => 0 <= x) v ->
  0 <= cosine_similarity u v.
Proof.
  intros Hu Hv. rewrite cosine_similarity_formula.
  pose proof (unit_factor_pos (dot u u)). pose proof (unit_factor_pos (dot v v)).
  pose proof (dot_nonneg u v Hu Hv).
  apply Rmult_le_pos; [apply Rmult_le_pos; lra|lra].
Qed.

Lemma normalize_nonneg (v : list R) :
  Forall (fun x => 0 <= x) v -> Forall (fun x => 0 <= x) (normalize v).
Proof.
  intros H. rewrite normalize_scale, Forall_map.
  eapply Forall_impl; [|exact H]. simpl. intros x Hx.
  pose proof (unit_factor_pos (dot v v)). nra.
Qed.

Lemma df_le (t : string) (toks : list (list string)) :
  (df t toks <= length toks)%nat.
Proof.
  unfold df. induction toks as [|d toks IH]; simpl; [lia|].
  destruct (existsb _ d); simpl; lia.
Qed.

Lemma idf_ge_1 (n d : nat) : (d <= n)%nat -> 1 <= idf n d.
Proof.
  intros H. unfold idf. apply le_INR in H.
  pose proof (pos_INR d) as Hd.
  assert (Hx : 1 <= (1 + INR n) / (1 + INR d)).
  { unfold Rdiv. pose proof (Rinv_0_lt_compat (1 + INR d) ltac:(lra)) as Hi.
    assert (E : (1 + INR d) * / (1 + INR d) = 1) by (field; lra).
    assert (0 <= (INR n - INR d) * / (1 + INR d)) by (apply Rmult_le_pos; lra).
    lra. }
  destruct (Req_dec ((1 + INR n) / (1 + INR d)) 1) as [->|Hne].
  - rewrite ln_1. lra.
  - assert (Hlt : ln 1 < ln ((1 + INR n) / (1 + INR d)))
      by (apply ln_increasing; lra).
    rewrite ln_1 in Hlt. lra.
Qed.

Lemma tfidf_nonneg (toks : list (list string)) (d : list string) (t : string) :
  0 <= tfidf toks d t.
Proof.
  unfold tfidf. pose proof (pos_INR (tf t d)).
  pose proof (idf_ge_1 _ _ (df_le t toks)). nra.
Qed.

(** The score of the vectorize-and-compare step lies between 0 and 1. *)
Lemma tfidf_cosine_range (a b : string) (x : R) :
  tfidf_cosine a b = Ok x -> 0 <= x <= 1.
Proof.
  unfold tfidf_cosine, fit_transform.
  change (map tokenize [a; b]) with [tokenize a; tokenize b].
  destruct (vocabulary [tokenize a; tokenize b]) as [|t V] eqn:E;
    [discriminate|].
  rewrite <- E. cbn [map row nth]. intros [= <-]. split.
  - apply cosine_similarity_nonneg; apply normalize_nonneg;
      rewrite Forall_map; apply Forall_forall; intros; apply tfidf_nonneg.
  - apply cosine_similarity_le_1.
Qed.

End LexicalRange.

Lemma round_half_even_le (y : R) (k : Z) :
  y <= IZR k -> (round_half_even y <= k)%Z.
Proof.
  intros H. unfold round_half_even.
  destruct (base_Int_part y) as [Hlo Hhi].
  assert (Hf : (Int_part y <= k)%Z) by (apply le_IZR; lra).
  destruct (Rlt_dec _ _) as [_|Hr]; [exact Hf|].
  assert (Hlt : (Int_part y < k)%Z) by (apply lt_IZR; lra).
  destruct (Rlt_dec _ _); [lia|]. destruct (Z.even _); lia.
Qed.

(** Rounding to two decimals never goes above a bound that has itself at
    most two decimals. *)
Lemma round2_le (x : R) (k : Z) : x <= IZR k / 100 -> round2 x <= IZR k / 100.
Proof.
  intros H. unfold round2.
  assert (Hk : (round_half_even (x * 100) <= k)%Z)
    by (apply round_half_even_le; lra).
  apply IZR_le in Hk. lra.
Qed.

Lemma percentage_range (x : R) : 0 <= x <= 1 -> 0 <= round2 (x * 100) <= 100.
Proof.
  intros [H0 H1]. split.
  - replace 0 with (IZR 0 / 100) by lra. apply round2_ge. lra.
  - replace 100 with (IZR 10000 / 100) by lra. apply round2_le. lra.
Qed.

(** X1. Whatever the two texts, the percentage of Tier 1 lies between 0 and
    100. *)
Theorem level1_percentage_range (text1 text2 : string) :
  0 <= Level1.similarity_percentage (level1_tfidf_similarity text1 text2) <= 100.
Proof.
  unfold level1_tfidf_similarity.
  destruct (tfidf_cosine (preprocess_text text1) (preprocess_text text2))
    as [x|e] eqn:E; simpl; [|lra].
  apply percentage_range. exact (tfidf_cosine_range _ _ _ E).
Qed.

(** X2. Tier 1 carries an error exactly when neither normalized text has a
    token; otherwise it carries its explanation, and no error. *)
Theorem level1_error_iff (text1 text2 : string) :
  let r := level1_tfidf_similarity text1 text2 in
  (Level1.error r <> None <->
   Sklearn.tokenize (preprocess_text text1) = [] /\
   Sklearn.tokenize (preprocess_text text2) = [])
  /\
  (Level1.error r = None <-> Level1.explanation r <> None).
Proof.
  unfold level1_tfidf_similarity.
  destruct (tfidf_cosine (preprocess_text text1) (preprocess_text text2))
    as [x|e] eqn:E; simpl.
  - split; [|split; [discriminate|reflexivity]].
    split; [congruence|]. intros [H1 H2].
    rewrite (tfidf_cosine_raises _ _ H1 H2) in E. discriminate.
  - apply tfidf_cosine_raise_iff in E as (H1 & H2 & _).
    split; [split; [auto|discriminate]|].
    split; [discriminate|congruence].
Qed.

(** X3. Two texts of which at least one has a token, and that share no token,
    have the percentage 0, without error. *)
Theorem level1_nothing_in_common (text1 text2 : string) :
  Sklearn.tokenize (preprocess_text text1) <> [] \/
  Sklearn.tokenize (preprocess_text text2) <> [] ->
  (forall t, In t (Sklearn.tokenize (preprocess_text text1)) ->
             ~ In t (Sklearn.tokenize (preprocess_text text2))) ->
  level1_tfidf_similarity text1 text2 =
  {| Level1.method := "TF-IDF + Cosine Similarity";
     Level1.similarity_percentage := 0;
     Level1.explanation := Some "Measures word overlap and frequency similarity";
     Level1.error := None |}.
Proof.
  intros Hne Hdis. unfold level1_tfidf_similarity.
  rewrite tfidf_cosine_returns by exact Hne.
  now rewrite lexical_cosine_disjoint, round2_0.
Qed.

Lemma level1_nothing_in_common_witness :
  level1_tfidf_similarity
    "Climate change is affecting global weather patterns."
    "The stock market experienced significant volatility today." =
  {| Level1.method := "TF-IDF + Cosine Similarity";
     Level1.similarity_percentage := 0;
     Level1.explanation := Some "Measures word overlap and frequency similarity";
     Level1.error := None |}.
Proof.
  apply (level1_nothing_in_common
           "Climate change is affecting global weather patterns."
           "The stock market experienced significant volatility today.").
  - left. vm_compute. discriminate.
  - apply disjoint_tokens. vm_compute. reflexivity.
Defined.

(** ** Tier 2: what is recorded and what is not *)

Lemma best_match_range (p : string) (l : list string) (m : R) (s : string) :
  best_match p l 0 "" = (m, s) -> 0 <= m <= 1.
Proof.
  intros H.
  destruct (best_match_scan p l _ _ _ _ H)
    as [(-> & _)|(Hlt & _ & _ & _ & Ss & _)]; [lra|].
  unfold processed_score in Ss.
  destruct (tfidf_cosine p (preprocess_text s)) as [x|] eqn:E; [|discriminate].
  injection Ss as ->. exact (tfidf_cosine_range _ _ _ E).
Qed.

Lemma best_match_above (p : string) (l : list string) (m : R) (s c : string)
    (x : R) :
  best_match p l 0 "" = (m, s) ->
  In c (valid_sentences l) -> processed_score p c = Some x -> x <= m.
Proof.
  intros H Hc Hx.
  destruct (best_match_scan p l _ _ _ _ H)
    as [(-> & _ & Hall)|(_ & _ & _ & _ & _ & Hall & _)]; eauto.
Qed.

(** The inner loop does not look at the sentences of B it skips. *)
Lemma best_match_valid_only (p : string) (l : list string) :
  forall (m0 : R) (s0 : string),
    best_match p (valid_sentences l) m0 s0 = best_match p l m0 s0.
Proof.
  unfold valid_sentences.
  induction l as [|c l IH]; intros m0 s0; [reflexivity|].
  simpl. destruct (too_short c) eqn:Hc; simpl; [apply IH|].
  rewrite Hc.
  destruct (tfidf_cosine p (preprocess_text c)); [|apply IH].
  destruct (Rgt_dec _ _); apply IH.
Qed.

Lemma compare_sentences_valid_only (sentences2 : list string) (threshold : R)
    (sentences1 : list string) :
  forall idx : nat,
    compare_sentences idx sentences1 (valid_sentences sentences2) threshold =
    compare_sentences idx sentences1 sentences2 threshold.
Proof.
  induction sentences1 as [|sent1 rest IH]; intros idx; [reflexivity|].
  simpl. rewrite IH, best_match_valid_only. reflexivity.
Qed.

Lemma compare_sentences_length (sentences2 : list string) (threshold : R)
    (sentences1 : list string) :
  forall idx : nat,
    (length (compare_sentences idx sentences1 sentences2 threshold)
     <= length sentences1)%nat.
Proof.
  induction sentences1 as [|sent1 rest IH]; intros idx; simpl; [lia|].
  specialize (IH (S idx)).
  destruct (too_short sent1); [lia|].
  destruct (best_match _ _ _ _). destruct (Rge_dec _ _); simpl; lia.
Qed.

Lemma compare_sentences_monotone (sentences2 : list string)
    (low high : R) (sentences1 : list string) :
  low <= high ->
  forall idx : nat,
    incl (compare_sentences idx sentences1 sentences2 high)
         (compare_sentences idx sentences1 sentences2 low).
Proof.
  intros Hle.
  induction sentences1 as [|sent1 rest IH]; intros idx; simpl;
    [apply incl_refl|].
  specialize (IH (S idx)).
  destruct (too_short sent1); [exact IH|].
  destruct (best_match _ _ _ _) as [m s].
  destruct (Rge_dec m high) as [Hh|Hh], (Rge_dec m low) as [Hl|Hl].
  - apply incl_cons; [now left|now apply incl_tl].
  - lra.
  - now apply incl_tl.
  - exact IH.
Qed.

(** The record of a valid sentence of A whose best score reaches the
    threshold is in the list. *)
Lemma compare_sentences_complete (sentences2 : list string) (threshold : R)
    (sentences1 : list string) :
  forall (idx k : nat) (sent1 : string),
    nth_error sentences1 k = Some sent1 ->
    too_short sent1 = false ->
    fst (best_match (preprocess_text sent1) sentences2 0 "") >= threshold ->
    In {| Level2.sentence := sent1;
          Level2.similarity :=
            round2 (fst (best_match (preprocess_text sent1) sentences2 0 "") * 100);
          Level2.matching_sentence :=
            snd (best_match (preprocess_text sent1) sentences2 0 "");
          Level2.position := idx + k + 1 |}
       (compare_sentences idx sentences1 sentences2 threshold).
Proof.
  induction sentences1 as [|s rest IH]; intros idx k sent1 Hk Hs Hge;
    [destruct k; discriminate|].
  simpl. destruct k as [|k]; simpl in Hk.
  - injection Hk as ->. rewrite Hs.
    destruct (best_match (preprocess_text sent1) sentences2 0 "") as [m b].
    simpl in *. destruct (Rge_dec m threshold); [|contradiction].
    left. now rewrite Nat.add_0_r.
  - specialize (IH (S idx) k sent1 Hk Hs Hge).
    replace (idx + S k + 1)%nat with (S idx + k + 1)%nat by lia.
    destruct (too_short s); [exact IH|].
    destruct (best_match (preprocess_text s) sentences2 0 "").
    destruct (Rge_dec _ _); [now right|exact IH].
Qed.

(** A sentence of A without token scores nothing. *)
Lemma best_match_no_token (p : string) (l : list string) :
  Sklearn.tokenize p = [] -> best_match p l 0 "" = (0, "").
Proof.
  intros Hp. induction l as [|c l IH]; [reflexivity|].
  simpl. destruct (too_short c); [exact IH|].
  destruct (tfidf_cosine p (preprocess_text c)) as [x|] eqn:E; [|exact IH].
  destruct (Req_dec x 0) as [->|Hx].
  - destruct (Rgt_dec 0 0); [lra|exact IH].
  - exfalso. exact (tfidf_cosine_nonzero _ _ _ E Hx Hp).
Qed.

(** Sentences of B without a token in common with the sentence of A score
    nothing either. *)
Lemma best_match_apart (p : string) (l : list string) :
  (forall c t, In c l -> In t (Sklearn.tokenize p) ->
               ~ In t (Sklearn.tokenize (preprocess_text c))) ->
  best_match p l 0 "" = (0, "").
Proof.
  intros H. induction l as [|c l IH]; [reflexivity|].
  assert (IH' : best_match p l 0 "" = (0, ""))
    by (apply IH; intros; apply (H c0); [now right|assumption]).
  simpl. destruct (too_short c); [exact IH'|].
  rewrite tfidf_cosine_unfold. destruct (is_nil _); [exact IH'|].
  rewrite lexical_cosine_disjoint
    by (intros t Ht; apply (H c); [now left|exact Ht]).
  destruct (Rgt_dec 0 0); [lra|exact IH'].
Qed.

Lemma compare_sentences_no_candidate (threshold : R) (sentences1 : list string) :
  0 < threshold ->
  forall idx : nat, compare_sentences idx sentences1 [] threshold = [].
Proof.
  intros Hthr. induction sentences1 as [|sent1 rest IH]; intros idx;
    [reflexivity|].
  simpl. rewrite IH. destruct (too_short sent1); [reflexivity|].
  destruct (Rge_dec 0 threshold); [lra|reflexivity].
Qed.

(** The list of Tier 2 is the outcome of its outer loop, also when the
    function returns before the loop, as long as the threshold is positive or
    the second text has a sentence. *)
Lemma level2_list (sent_tokenize : SentTokenizer) (text1 text2 : string)
    (threshold : R) :
  sentences_of sent_tokenize text2 <> [] \/ 0 < threshold ->
  Level2.plagiarized_sentences
    (level2_sentence_level sent_tokenize text1 text2 threshold) =
  compare_sentences 0 (sentences_of sent_tokenize text1)
                    (sentences_of sent_tokenize text2) threshold.
Proof.
  intros H. unfold level2_sentence_level, sentences_of in *.
  destruct (sent_tokenize text1) as [sentences1|]; [|reflexivity].
  destruct (sent_tokenize text2) as [sentences2|].
  - destruct sentences1 as [|s1 l1]; [reflexivity|].
    destruct sentences2 as [|s2 l2]; [|reflexivity].
    destruct H as [H|H]; [congruence|].
    now rewrite compare_sentences_no_candidate.
  - destruct H as [H|H]; [congruence|].
    now rewrite compare_sentences_no_candidate.
Qed.

(** X4. In every result of Tier 2 the count is the length of the list, and it
    does not exceed the total of sentences. *)
Theorem level2_counts (sent_tokenize : SentTokenizer) (text1 text2 : string)
    (threshold : R) :
  let r := level2_sentence_level sent_tokenize text1 text2 threshold in
  Level2.plagiarized_count r = length (Level2.plagiarized_sentences r) /\
  (Level2.plagiarized_count r <= Level2.total_sentences r)%nat.
Proof.
  unfold level2_sentence_level.
  destruct (sent_tokenize text1) as [sentences1|]; [|simpl; lia].
  destruct (sent_tokenize text2) as [sentences2|]; [|simpl; lia].
  destruct (is_nil sentences1 || is_nil sentences2); simpl; [lia|].
  split; [reflexivity|apply compare_sentences_length].
Qed.

(** X5. Every percentage recorded by Tier 2 lies between 0 and 100. *)
Theorem level2_percentages (sent_tokenize : SentTokenizer)
    (text1 text2 : string) (threshold : R) :
  Forall (fun f => 0 <= Level2.similarity f <= 100)
         (Level2.plagiarized_sentences
            (level2_sentence_level sent_tokenize text1 text2 threshold)).
Proof.
  eapply Forall_impl; [|apply level2_emitted].
  intros f (k & _ & _ & _ & H).
  destruct (best_match (preprocess_text (Level2.sentence f))
              (sentences_of sent_tokenize text2) 0 "") as [m s] eqn:Hb.
  simpl in H. destruct H as (_ & -> & _).
  apply percentage_range. exact (best_match_range _ _ _ _ Hb).
Qed.

(** X6. Raising the threshold of Tier 2 only removes records: every record
    made with the higher threshold is made with the lower one. *)
Theorem level2_threshold_monotone (sent_tokenize : SentTokenizer)
    (text1 text2 : string) (low high : R) :
  low <= high ->
  incl (Level2.plagiarized_sentences
          (level2_sentence_level sent_tokenize text1 text2 high))
       (Level2.plagiarized_sentences
          (level2_sentence_level sent_tokenize text1 text2 low)).
Proof.
  intros Hle. unfold level2_sentence_level.
  destruct (sent_tokenize text1) as [sentences1|]; [|apply incl_refl].
  destruct (sent_tokenize text2) as [sentences2|]; [|apply incl_refl].
  destruct (is_nil sentences1 || is_nil sentences2); [apply incl_refl|].
  simpl. now apply compare_sentences_monotone.
Qed.

Lemma level2_threshold_monotone_witness :
  incl (Level2.plagiarized_sentences
          (level2_sentence_level Nltk.plain_sent_tokenize
             "The quick brown fox jumps. It is fast."
             "A fox jumps high. The quick brown fox jumps." 0.9))
       (Level2.plagiarized_sentences
          (level2_sentence_level Nltk.plain_sent_tokenize
             "The quick brown fox jumps. It is fast."
             "A fox jumps high. The quick brown fox jumps." 0.7)).
Proof.
  apply (level2_threshold_monotone Nltk.plain_sent_tokenize
           "The quick brown fox jumps. It is fast."
           "A fox jumps high. The quick brown fox jumps." 0.7 0.9).
  lra.
Defined.

(** X7. Tier 2 does not depend on the sentences of the second text of trimmed
    length below 10: two second texts, each with a sentence, whose longer
    sentences are the same give the same result. *)
Theorem level2_ignores_short_sentences (sent_tokenize : SentTokenizer)
    (text1 text2 text2' : string) (threshold : R) :
  sentences_of sent_tokenize text2 <> [] ->
  sentences_of sent_tokenize text2' <> [] ->
  valid_sentences (sentences_of sent_tokenize text2) =
  valid_sentences (sentences_of sent_tokenize text2') ->
  level2_sentence_level sent_tokenize text1 text2 threshold =
  level2_sentence_level sent_tokenize text1 text2' threshold.
Proof.
  unfold level2_sentence_level, sentences_of.
  destruct (sent_tokenize text1) as [sentences1|]; [|reflexivity].
  destruct (sent_tokenize text2) as [sentences2|]; [|congruence].
  destruct (sent_tokenize text2') as [sentences2'|]; [|congruence].
  intros H H' E.
  destruct sentences2 as [|a l]; [congruence|].
  destruct sentences2' as [|a' l']; [congruence|].
  destruct (is_nil sentences1); [reflexivity|]. cbn [is_nil orb].
  rewrite <- (compare_sentences_valid_only (a :: l)),
          <- (compare_sentences_valid_only (a' :: l')), E.
  reflexivity.
Qed.

Lemma level2_ignores_short_sentences_witness :
  level2_sentence_level Nltk.plain_sent_tokenize
    "The quick brown fox jumps." "Yes. The quick brown fox jumps." 0.7 =
  level2_sentence_level Nltk.plain_sent_tokenize
    "The quick brown fox jumps." "The quick brown fox jumps. Oh no!" 0.7.
Proof.
  apply (level2_ignores_short_sentences Nltk.plain_sent_tokenize
           "The quick brown fox jumps." "Yes. The quick brown fox jumps."
           "The quick brown fox jumps. Oh no!" 0.7).
  - vm_compute. discriminate.
  - vm_compute. discriminate.
  - vm_compute. reflexivity.
Defined.

Lemma compare_sentences_all_short (sentences2 : list string) (threshold : R)
    (sentences1 : list string) :
  valid_sentences sentences1 = [] ->
  forall idx : nat, compare_sentences idx sentences1 sentences2 threshold = [].
Proof.
  unfold valid_sentences.
  induction sentences1 as [|sent1 rest IH]; intros H idx; [reflexivity|].
  simpl in *. destruct (too_short sent1); [auto|discriminate].
Qed.

(** X8. Tier 2 records nothing when the first text has no sentence of
    trimmed length 10 or more, and, with a positive threshold, when the second
    text has none. *)
Theorem level2_no_candidates (sent_tokenize : SentTokenizer)
    (text1 text2 : string) (threshold : R) :
  valid_sentences (sentences_of sent_tokenize text1) = [] \/
  (0 < threshold /\ valid_sentences (sentences_of sent_tokenize text2) = []) ->
  Level2.plagiarized_sentences
    (level2_sentence_level sent_tokenize text1 text2 threshold) = [].
Proof.
  intros H.
  destruct (level2_found sent_tokenize text1 text2 threshold)
    as [E|[E _]]; [exact E|].
  rewrite E. destruct H as [H|[Hthr H]].
  - now apply compare_sentences_all_short.
  - rewrite <- compare_sentences_valid_only, H.
    now apply compare_sentences_no_candidate.
Qed.

Lemma level2_no_candidates_witness :
  Level2.plagiarized_sentences
    (level2_sentence_level Nltk.plain_sent_tokenize
       "The quick brown fox jumps." "Oh no! Why? Stop it." 0.7) = [].
Proof.
  apply (level2_no_candidates Nltk.plain_sent_tokenize
           "The quick brown fox jumps." "Oh no! Why? Stop it." 0.7).
  right. split; [lra|vm_compute; reflexivity].
Defined.

Lemma compare_sentences_apart (sentences2 : list string) (threshold : R)
    (sentences1 : list string) :
  0 < threshold ->
  (forall sent1 sent2 t,
      In sent1 sentences1 -> In sent2 sentences2 ->
      In t (Sklearn.tokenize (preprocess_text sent1)) ->
      ~ In t (Sklearn.tokenize (preprocess_text sent2))) ->
  forall idx : nat, compare_sentences idx sentences1 sentences2 threshold = [].
Proof.
  intros Hthr. induction sentences1 as [|sent1 rest IH]; intros H idx;
    [reflexivity|].
  simpl. rewrite IH by (intros s1 s2 t H1; apply H; now right).
  destruct (too_short sent1); [reflexivity|].
  rewrite best_match_apart by (intros c t Hc; apply (H sent1 c t); [now left|exact Hc]).
  destruct (Rge_dec 0 threshold); [lra|reflexivity].
Qed.

(** X9. With a positive threshold, Tier 2 records nothing for two texts none
    of whose sentences share a token. *)
Theorem level2_nothing_in_common (sent_tokenize : SentTokenizer)
    (text1 text2 : string) (threshold : R) :
  0 < threshold ->
  (forall sent1 sent2 t,
      In sent1 (sentences_of sent_tokenize text1) ->
      In sent2 (sentences_of sent_tokenize text2) ->
      In t (Sklearn.tokenize (preprocess_text sent1)) ->
      ~ In t (Sklearn.tokenize (preprocess_text sent2))) ->
  Level2.plagiarized_sentences
    (level2_sentence_level sent_tokenize text1 text2 threshold) = [].
Proof.
  intros Hthr H. rewrite level2_list by (now right).
  now apply compare_sentences_apart.
Qed.

Lemma level2_nothing_in_common_witness :
  Level2.plagiarized_sentences
    (level2_sentence_level Nltk.plain_sent_tokenize
       "Climate change is affecting weather."
       "Investors are concerned about inflation rates." 0.7) = [].
Proof.
  apply (level2_nothing_in_common Nltk.plain_sent_tokenize
           "Climate change is affecting weather."
           "Investors are concerned about inflation rates." 0.7).
  - lra.
  - intros sent1 sent2 t H1 H2.
    vm_compute in H1, H2.
    destruct H1 as [<-|[]]. destruct H2 as [<-|[]].
    apply disjoint_tokens. vm_compute. reflexivity.
Defined.

(** A valid sentence with a token that also stands in B has the best
    score 1. *)
Lemma best_match_copy (sent1 : string) (sentences2 : list string) :
  too_short sent1 = false ->
  Sklearn.tokenize (preprocess_text sent1) <> [] ->
  In sent1 sentences2 ->
  fst (best_match (preprocess_text sent1) sentences2 0 "") = 1.
Proof.
  intros Hs Ht Hin.
  destruct (best_match (preprocess_text sent1) sentences2 0 "") as [m b] eqn:Hb.
  simpl. pose proof (best_match_range _ _ _ _ Hb) as [_ Hle].
  assert (Hge : 1 <= m).
  { apply (best_match_above _ _ _ _ sent1 1 Hb).
    - apply valid_sentences_In. auto.
    - apply processed_score_ok, tfidf_cosine_same, Ht. }
  lra.
Qed.

(** X10. With a threshold of at most 0.99, a sentence of the first text, of
    trimmed length 10 or more and with a token, that also is a sentence of the
    second text is recorded by Tier 2 at its position with the percentage 100.
    The bound keeps the threshold away from 1, where the last digit of the
    library's floating-point cosine would decide. *)
Theorem level2_finds_copy (sent_tokenize : SentTokenizer)
    (text1 text2 : string) (threshold : R) (k : nat) (sent1 : string) :
  threshold <= 0.99 ->
  nth_error (sentences_of sent_tokenize text1) k = Some sent1 ->
  too_short sent1 = false ->
  Sklearn.tokenize (preprocess_text sent1) <> [] ->
  In sent1 (sentences_of sent_tokenize text2) ->
  exists f : Level2.found,
    In f (Level2.plagiarized_sentences
            (level2_sentence_level sent_tokenize text1 text2 threshold)) /\
    Level2.sentence f = sent1 /\
    Level2.position f = (k + 1)%nat /\
    Level2.similarity f = 100.
Proof.
  intros Hthr Hk Hs Ht Hin.
  pose proof (best_match_copy sent1 _ Hs Ht Hin) as Hone.
  rewrite level2_list by (left; intros E; rewrite E in Hin; contradiction).
  eexists. split; [|split; [|split]].
  - apply (compare_sentences_complete _ _ _ 0 k sent1 Hk Hs).
    rewrite Hone. lra.
  - reflexivity.
  - reflexivity.
  - simpl. rewrite Hone. apply round2_100.
Qed.

Lemma level2_finds_copy_witness :
  exists f : Level2.found,
    In f (Level2.plagiarized_sentences
            (level2_sentence_level Nltk.plain_sent_tokenize
               "It is late. The quick brown fox jumps."
               "A dog barks loudly. The quick brown fox jumps." 0.7)) /\
    Level2.sentence f = "The quick brown fox jumps." /\
    Level2.position f = 2%nat /\
    Level2.similarity f = 100.
Proof.
  apply (level2_finds_copy Nltk.plain_sent_tokenize
           "It is late. The quick brown fox jumps."
           "A dog barks loudly. The quick brown fox jumps." 0.7 1
           "The quick brown fox jumps.").
  - lra.
  - reflexivity.
  - reflexivity.
  - vm_compute. discriminate.
  - vm_compute. auto.
Defined.

Lemma compare_sentences_self (sentences2 : list string) (threshold : R)
    (sentences1 : list string) :
  0 < threshold <= 1 ->
  incl sentences1 sentences2 ->
  forall idx : nat,
    map Level2.sentence (compare_sentences idx sentences1 sentences2 threshold)
    = filter comparable sentences1 /\
    Forall (fun f => Level2.similarity f = 100)
           (compare_sentences idx sentences1 sentences2 threshold).
Proof.
  intros Hthr. induction sentences1 as [|sent1 rest IH]; intros Hincl idx;
    [split; [reflexivity|constructor]|].
  assert (Hin : In sent1 sentences2) by (apply Hincl; now left).
  assert (Hrest : incl rest sentences2) by (intros s Hs; apply Hincl; now right).
  destruct (IH Hrest (S idx)) as [IHm IHf]. simpl. unfold comparable at 1.
  destruct (too_short sent1) eqn:Hs; simpl; [now split|].
  destruct (Sklearn.tokenize (preprocess_text sent1)) as [|t ts] eqn:Ht; simpl.
  - rewrite (best_match_no_token _ _ Ht).
    destruct (Rge_dec 0 threshold); [lra|now split].
  - pose proof (best_match_copy sent1 sentences2 Hs) as Hone.
    rewrite Ht in Hone. specialize (Hone ltac:(discriminate) Hin).
    destruct (best_match (preprocess_text sent1) sentences2 0 "") as [m b].
    simpl in Hone. subst m.
    destruct (Rge_dec 1 threshold); [|lra]. simpl. split.
    + now rewrite IHm.
    + constructor; [apply round2_100|exact IHf].
Qed.

(** X11. A text compared with itself by Tier 2, with a threshold above 0 and
    of at most 0.99: the recorded sentences are exactly its sentences of
    trimmed length 10 or more that have a token, in order, each with the
    percentage 100.  The bound keeps the threshold away from 1, where the
    last digit of the library's floating-point cosine would decide. *)
Theorem level2_self_comparison (sent_tokenize : SentTokenizer) (text : string)
    (threshold : R) :
  0 < threshold <= 0.99 ->
  let r := level2_sentence_level sent_tokenize text text threshold in
  map Level2.sentence (Level2.plagiarized_sentences r) =
  filter comparable (sentences_of sent_tokenize text) /\
  Forall (fun f => Level2.similarity f = 100) (Level2.plagiarized_sentences r).
Proof.
  intros Hthr r. unfold r. rewrite level2_list by (right; lra).
  apply compare_sentences_self; [lra|apply incl_refl].
Qed.

Lemma level2_self_comparison_witness :
  map Level2.sentence
      (Level2.plagiarized_sentences
         (level2_sentence_level Nltk.plain_sent_tokenize
            "Artificial intelligence is transforming the world. Machine learning algorithms can process vast amounts of data. Deep learning has revolutionized computer vision."
            "Artificial intelligence is transforming the world. Machine learning algorithms can process vast amounts of data. Deep learning has revolutionized computer vision."
            0.7)) =
  filter comparable
    (sentences_of Nltk.plain_sent_tokenize
       "Artificial intelligence is transforming the world. Machine learning algorithms can process vast amounts of data. Deep learning has revolutionized computer vision.")
  /\
  Forall (fun f => Level2.similarity f = 100)
    (Level2.plagiarized_sentences
       (level2_sentence_level Nltk.plain_sent_tokenize
          "Artificial intelligence is transforming the world. Machine learning algorithms can process vast amounts of data. Deep learning has revolutionized computer vision."
          "Artificial intelligence is transforming the world. Machine learning algorithms can process vast amounts of data. Deep learning has revolutionized computer vision."
          0.7)).
Proof.
  apply (level2_self_comparison Nltk.plain_sent_tokenize
           "Artificial intelligence is transforming the world. Machine learning algorithms can process vast amounts of data. Deep learning has revolutionized computer vision."
           0.7).
  lra.
Defined.

(** The three sentences of the scenario all count. *)
Example comparable_scenario :
  filter comparable
    (sentences_of Nltk.plain_sent_tokenize
       "Artificial intelligence is transforming the world. Machine learning algorithms can process vast amounts of data. Deep learning has revolutionized computer vision.")
  = [ "Artificial intelligence is transforming the world.";
      "Machine learning algorithms can process vast amounts of data.";
      "Deep learning has revolutionized computer vision." ].
Proof. vm_compute. reflexivity. Qed.

(** ** Tier 3: what is recorded and what is not *)

Section Tier3Records.

Variable model : SentenceModel.

Lemma compare_embeddings_length (valid_sentences2 : list string)
    (embeddings2 : list (list R)) (threshold : R) (sentences1 : list string) :
  forall idx : nat,
    (length (compare_embeddings model idx sentences1 valid_sentences2
               embeddings2 threshold) <= length sentences1)%nat.
Proof.
  induction sentences1 as [|sent1 rest IH]; intros idx; simpl; [lia|].
  specialize (IH (S idx)).
  destruct (too_short sent1); [lia|]. destruct (Rge_dec _ _); simpl; lia.
Qed.

Lemma compare_embeddings_monotone (valid_sentences2 : list string)
    (embeddings2 : list (list R)) (low high : R) (sentences1 : list string) :
  low <= high ->
  forall idx : nat,
    incl (compare_embeddings model idx sentences1 valid_sentences2 embeddings2 high)
         (compare_embeddings model idx sentences1 valid_sentences2 embeddings2 low).
Proof.
  intros Hle.
  induction sentences1 as [|sent1 rest IH]; intros idx; simpl;
    [apply incl_refl|].
  specialize (IH (S idx)).
  destruct (too_short sent1); [exact IH|].
  destruct (Rge_dec _ high) as [Hh|Hh], (Rge_dec _ low) as [Hl|Hl].
  - apply incl_cons; [now left|now apply incl_tl].
  - lra.
  - now apply incl_tl.
  - exact IH.
Qed.

Lemma compare_embeddings_all_short (valid_sentences2 : list string)
    (embeddings2 : list (list R)) (threshold : R) (sentences1 : list string) :
  valid_sentences sentences1 = [] ->
  forall idx : nat,
    compare_embeddings model idx sentences1 valid_sentences2 embeddings2
                       threshold = [].
Proof.
  unfold valid_sentences.
  induction sentences1 as [|sent1 rest IH]; intros H idx; [reflexivity|].
  simpl in *. destruct (too_short sent1); [auto|discriminate].
Qed.

Lemma compare_embeddings_complete (valid_sentences2 : list string)
    (embeddings2 : list (list R)) (threshold : R) (sentences1 : list string) :
  forall (idx k : nat) (sent1 : string),
    nth_error sentences1 k = Some sent1 ->
    too_short sent1 = false ->
    let similarities :=
      map (Sklearn.cosine_similarity (encode model sent1)) embeddings2 in
    nth (argmax similarities) similarities 0 >= threshold ->
    In {| Level3.sentence := sent1;
          Level3.semantic_similarity :=
            round2 (nth (argmax similarities) similarities 0 * 100);
          Level3.matching_sentence :=
            nth (argmax similarities) valid_sentences2 "";
          Level3.position := idx + k + 1;
          Level3.type := "semantic" |}
       (compare_embeddings model idx sentences1 valid_sentences2 embeddings2
                           threshold).
Proof.
  induction sentences1 as [|s rest IH]; intros idx k sent1 Hk Hs sims Hge;
    [destruct k; discriminate|].
  simpl. destruct k as [|k]; simpl in Hk.
  - injection Hk as ->. rewrite Hs. fold sims.
    destruct (Rge_dec _ threshold); [|contradiction].
    left. now rewrite Nat.add_0_r.
  - specialize (IH (S idx) k sent1 Hk Hs Hge).
    replace (idx + S k + 1)%nat with (S idx + k + 1)%nat by lia.
    destruct (too_short s); [exact IH|].
    destruct (Rge_dec _ _); [now right|exact IH].
Qed.

(** The greatest similarity is at most 1. *)
Lemma best_similarity_le_1 (e : list R) (embeddings2 : list (list R)) :
  let similarities := map (Sklearn.cosine_similarity e) embeddings2 in
  nth (argmax similarities) similarities 0 <= 1.
Proof.
  cbv zeta.
  destruct (nth_in_or_default
              (argmax (map (Sklearn.cosine_similarity e) embeddings2))
              (map (Sklearn.cosine_similarity e) embeddings2) 0)
    as [Hin| ->]; [|lra].
  apply in_map_iff in Hin as (e2 & <- & _).
  apply cosine_similarity_le_1.
Qed.

(** The greatest similarity is at least every similarity. *)
Lemma best_similarity_above (e : list R) (embeddings2 : list (list R)) (z : R) :
  let similarities := map (Sklearn.cosine_similarity e) embeddings2 in
  In z similarities -> z <= nth (argmax similarities) similarities 0.
Proof.
  cbv zeta. intros Hz.
  destruct (argmax_spec (map (Sklearn.cosine_similarity e) embeddings2))
    as (y & Hy & Hall & _).
  { intros E. rewrite E in Hz. contradiction. }
  rewrite (nth_error_nth _ _ _ Hy). now apply Hall.
Qed.

End Tier3Records.

(** The list of Tier 3 with its model is the outcome of its loop when the
    second text has a sentence of trimmed length 10 or more, and is empty
    otherwise. *)
Lemma level3_list (model : SentenceModel) (sent_tokenize : SentTokenizer)
    (text1 text2 : string) (threshold : R) :
  let valid_sentences2 := valid_sentences (sentences_of sent_tokenize text2) in
  Level3.semantic_plagiarized_sentences
    (level3_semantic_similarity (Some model) sent_tokenize text1 text2 threshold)
  = if is_nil valid_sentences2 then []
    else compare_embeddings model 0 (sentences_of sent_tokenize text1)
           valid_sentences2 (encode_all model valid_sentences2) threshold.
Proof.
  unfold level3_semantic_similarity, sentences_of.
  destruct (sent_tokenize text1) as [sentences1|].
  - destruct (sent_tokenize text2) as [sentences2|]; [|reflexivity].
    destruct sentences1 as [|s1 l1].
    + simpl. now destruct (is_nil _).
    + destruct sentences2 as [|s2 l2]; [reflexivity|]. cbn [is_nil orb].
      now destruct (is_nil (valid_sentences (s2 :: l2))).
  - destruct (sent_tokenize text2) as [sentences2|]; simpl;
      [now destruct (is_nil _)|reflexivity].
Qed.

(** X12. In every result of Tier 3 that carries a count, the count is the
    length of the list; a result without count has an empty list and an
    error; and the list is never longer than the total of sentences. *)
Theorem level3_counts (sentence_model : option SentenceModel)
    (sent_tokenize : SentTokenizer) (text1 text2 : string) (threshold : R) :
  let r := level3_semantic_similarity sentence_model sent_tokenize text1 text2
             threshold in
  (Level3.semantic_plagiarized_count r =
     Some (length (Level3.semantic_plagiarized_sentences r))
   \/
   (Level3.semantic_plagiarized_count r = None /\
    Level3.semantic_plagiarized_sentences r = [] /\
    Level3.error r <> None))
  /\
  (forall n : nat,
      Level3.total_sentences r = Some n ->
      (length (Level3.semantic_plagiarized_sentences r) <= n)%nat).
Proof.
  unfold level3_semantic_similarity.
  destruct sentence_model as [model|];
    [|simpl; split; [right; repeat split; discriminate|discriminate]].
  destruct (sent_tokenize text1) as [sentences1|];
    [|simpl; split; [right; repeat split; discriminate|discriminate]].
  destruct (sent_tokenize text2) as [sentences2|];
    [|simpl; split; [right; repeat split; discriminate|discriminate]].
  destruct (is_nil sentences1 || is_nil sentences2);
    [simpl; split; [now left|intros n [= <-]; lia]|].
  destruct (is_nil (valid_sentences sentences2));
    [simpl; split; [now left|intros n [= <-]; lia]|].
  simpl. split; [now left|]. intros n [= <-].
  apply compare_embeddings_length.
Qed.

Lemma level3_counts_witness :
  (length (Level3.semantic_plagiarized_sentences
             (level3_semantic_similarity (Some length_model)
                Nltk.plain_sent_tokenize
                "The quick brown fox jumps. It is fast."
                "A fox jumps high. The quick brown fox jumps." 0.75)) <= 2)%nat.
Proof.
  apply (proj2 (level3_counts (Some length_model) Nltk.plain_sent_tokenize
                  "The quick brown fox jumps. It is fast."
                  "A fox jumps high. The quick brown fox jumps." 0.75) 2%nat).
  unfold level3_semantic_similarity.
  change (Nltk.plain_sent_tokenize "The quick brown fox jumps. It is fast.")
    with (Ok ["The quick brown fox jumps."; "It is fast."]).
  change (Nltk.plain_sent_tokenize "A fox jumps high. The quick brown fox jumps.")
    with (Ok ["A fox jumps high."; "The quick brown fox jumps."]).
  cbn [is_nil orb].
  change (valid_sentences ["A fox jumps high."; "The quick brown fox jumps."])
    with ["A fox jumps high."; "The quick brown fox jumps."].
  reflexivity.
Defined.


(** X13. No percentage recorded by Tier 3 exceeds 100. *)
Theorem level3_percentages (sentence_model : option SentenceModel)
    (sent_tokenize : SentTokenizer) (text1 text2 : string) (threshold : R) :
  Forall (fun f => Level3.semantic_similarity f <= 100)
         (Level3.semantic_plagiarized_sentences
            (level3_semantic_similarity sentence_model sent_tokenize
               text1 text2 threshold)).
Proof.
  destruct sentence_model as [model|]; [|constructor].
  eapply Forall_impl; [|apply level3_emitted].
  intros f (k & _ & _ & _ & H). simpl in H. destruct H as (_ & -> & _).
  replace 100 with (IZR 10000 / 100) by lra. apply round2_le.
  pose proof (best_similarity_le_1 (encode model (Level3.sentence f))
                (encode_all model
                   (valid_sentences (sentences_of sent_tokenize text2)))).
  simpl in H. lra.
Qed.

(** X14. Raising the threshold of Tier 3 only removes records. *)
Theorem level3_threshold_monotone (sentence_model : option SentenceModel)
    (sent_tokenize : SentTokenizer) (text1 text2 : string) (low high : R) :
  low <= high ->
  incl (Level3.semantic_plagiarized_sentences
          (level3_semantic_similarity sentence_model sent_tokenize
             text1 text2 high))
       (Level3.semantic_plagiarized_sentences
          (level3_semantic_similarity sentence_model sent_tokenize
             text1 text2 low)).
Proof.
  intros Hle. destruct sentence_model as [model|]; [|apply incl_refl].
  rewrite !level3_list. destruct (is_nil _); [apply incl_refl|].
  now apply compare_embeddings_monotone.
Qed.

Lemma level3_threshold_monotone_witness :
  incl (Level3.semantic_plagiarized_sentences
          (level3_semantic_similarity (Some length_model) Nltk.plain_sent_tokenize
             "The quick brown fox jumps. It is fast."
             "A fox jumps high. The quick brown fox jumps." 0.9))
       (Level3.semantic_plagiarized_sentences
          (level3_semantic_similarity (Some length_model) Nltk.plain_sent_tokenize
             "The quick brown fox jumps. It is fast."
             "A fox jumps high. The quick brown fox jumps." 0.75)).
Proof.
  apply (level3_threshold_monotone (Some length_model) Nltk.plain_sent_tokenize
           "The quick brown fox jumps. It is fast."
           "A fox jumps high. The quick brown fox jumps." 0.75 0.9).
  lra.
Defined.

(** X15. Tier 3 records nothing when one of the two texts has no sentence of
    trimmed length 10 or more. *)
Theorem level3_no_candidates (sentence_model : option SentenceModel)
    (sent_tokenize : SentTokenizer) (text1 text2 : string) (threshold : R) :
  valid_sentences (sentences_of sent_tokenize text1) = [] \/
  valid_sentences (sentences_of sent_tokenize text2) = [] ->
  Level3.semantic_plagiarized_sentences
    (level3_semantic_similarity sentence_model sent_tokenize text1 text2
       threshold) = [].
Proof.
  intros H. destruct sentence_model as [model|]; [|reflexivity].
  rewrite level3_list. destruct H as [H|H].
  - destruct (is_nil _); [reflexivity|].
    now apply compare_embeddings_all_short.
  - now rewrite H.
Qed.

Lemma level3_no_candidates_witness :
  Level3.semantic_plagiarized_sentences
    (level3_semantic_similarity (Some length_model) Nltk.plain_sent_tokenize
       "The quick brown fox jumps." "Oh no! Why? Stop it." 0) = [].
Proof.
  apply (level3_no_candidates (Some length_model) Nltk.plain_sent_tokenize
           "The quick brown fox jumps." "Oh no! Why? Stop it." 0).
  right. vm_compute. reflexivity.
Defined.

(** X16. With a threshold of at most 0.99, a sentence of the first text, of
    trimmed length 10 or more and with an embedding that is not zero, that
    also is a sentence of the second text is recorded by Tier 3 at its
    position with the percentage 100.  The bound keeps the threshold away
    from 1, where the last digit of the floating-point cosine would decide. *)
Theorem level3_finds_copy (model : SentenceModel)
    (sent_tokenize : SentTokenizer) (text1 text2 : string) (threshold : R)
    (k : nat) (sent1 : string) :
  threshold <= 0.99 ->
  nth_error (sentences_of sent_tokenize text1) k = Some sent1 ->
  too_short sent1 = false ->
  0 < Sklearn.dot (encode model sent1) (encode model sent1) ->
  In sent1 (sentences_of sent_tokenize text2) ->
  exists f : Level3.found,
    In f (Level3.semantic_plagiarized_sentences
            (level3_semantic_similarity (Some model) sent_tokenize text1 text2
               threshold)) /\
    Level3.sentence f = sent1 /\
    Level3.position f = (k + 1)%nat /\
    Level3.semantic_similarity f = 100.
Proof.
  intros Hthr Hk Hs He Hin.
  assert (Hv : In sent1 (valid_sentences (sentences_of sent_tokenize text2)))
    by (apply valid_sentences_In; auto).
  rewrite level3_list.
  destruct (valid_sentences (sentences_of sent_tokenize text2))
    as [|v vs] eqn:Ev; [contradiction|].
  cbn [is_nil]. rewrite <- Ev in *.
  set (valid_sentences2 := valid_sentences (sentences_of sent_tokenize text2)) in *.
  set (sims := map (Sklearn.cosine_similarity (encode model sent1))
                   (encode_all model valid_sentences2)).
  assert (Hone : nth (argmax sims) sims 0 = 1).
  { apply Rle_antisym; [apply best_similarity_le_1|].
    apply best_similarity_above. unfold encode_all. rewrite map_map.
    apply in_map_iff. exists sent1. split; [|exact Hv].
    now apply cosine_similarity_self. }
  eexists. split; [|split; [|split]].
  - apply (compare_embeddings_complete model _ _ _ _ 0 k sent1 Hk Hs).
    fold sims. rewrite Hone. lra.
  - reflexivity.
  - reflexivity.
  - simpl. fold sims. rewrite Hone. apply round2_100.
Qed.

Lemma level3_finds_copy_witness :
  exists f : Level3.found,
    In f (Level3.semantic_plagiarized_sentences
            (level3_semantic_similarity (Some length_model)
               Nltk.plain_sent_tokenize
               "It is late. The quick brown fox jumps."
               "A dog barks loudly. The quick brown fox jumps." 0.75)) /\
    Level3.sentence f = "The quick brown fox jumps." /\
    Level3.position f = 2%nat /\
    Level3.semantic_similarity f = 100.
Proof.
  apply (level3_finds_copy length_model Nltk.plain_sent_tokenize
           "It is late. The quick brown fox jumps."
           "A dog barks loudly. The quick brown fox jumps." 0.75 1
           "The quick brown fox jumps.").
  - lra.
  - reflexivity.
  - reflexivity.
  - unfold length_model, encode. rewrite !dot_cons.
    unfold Sklearn.dot. simpl fold_right.
    pose proof (pos_INR (String.length "The quick brown fox jumps.")). nra.
  - vm_compute. auto.
Defined.

(** ** The endpoint *)

Lemma level2_count_length (sent_tokenize : SentTokenizer) (text1 text2 : string)
    (threshold : R) :
  Level2.plagiarized_count
    (level2_sentence_level sent_tokenize text1 text2 threshold) =
  length (Level2.plagiarized_sentences
            (level2_sentence_level sent_tokenize text1 text2 threshold)).
Proof.
  unfold level2_sentence_level.
  destruct (sent_tokenize text1) as [sentences1|]; [|reflexivity].
  destruct (sent_tokenize text2) as [sentences2|]; [|reflexivity].
  now destruct (is_nil sentences1 || is_nil sentences2).
Qed.

Lemma level3_count_length (sentence_model : option SentenceModel)
    (sent_tokenize : SentTokenizer) (text1 text2 : string) (threshold : R) :
  match Level3.semantic_plagiarized_count
          (level3_semantic_similarity sentence_model sent_tokenize text1 text2
             threshold) with
  | Some n => n
  | None => 0%nat
  end =
  length (Level3.semantic_plagiarized_sentences
            (level3_semantic_similarity sentence_model sent_tokenize text1 text2
               threshold)).
Proof.
  unfold level3_semantic_similarity.
  destruct sentence_model as [model|]; [|reflexivity].
  destruct (sent_tokenize text1) as [sentences1|]; [|reflexivity].
  destruct (sent_tokenize text2) as [sentences2|]; [|reflexivity].
  destruct (is_nil sentences1 || is_nil sentences2); [reflexivity|].
  now destruct (is_nil (valid_sentences sentences2)).
Qed.

(** X17. A POST whose body parses and whose two fields, when present, are
    strings is answered with 400 exactly when the body is empty or one of the
    two texts, stripped, has fewer than 10 characters; the answer then carries
    one of the three validation messages. *)
Theorem check_plagiarism_validation (sentence_model : option SentenceModel)
    (sent_tokenize : SentTokenizer) (request : Http.request)
    (data : Http.json) (text1 text2 : string) :
  Http.verb_of request = Http.POST ->
  Http.get_json request = Ok data ->
  Http.strip (Http.get (Http.fields_of data) "text1" (Http.JString "")) = Ok text1 ->
  Http.strip (Http.get (Http.fields_of data) "text2" (Http.JString "")) = Ok text2 ->
  let r := check_plagiarism sentence_model sent_tokenize request in
  (Http.status r = 400%nat <->
   Http.falsy data = true \/
   (PyStr.len text1 < 10)%nat \/ (PyStr.len text2 < 10)%nat)
  /\
  (Http.status r = 400%nat ->
   Http.body r = Http.Rejected "No JSON data provided" \/
   Http.body r = Http.Rejected "Both text1 and text2 are required" \/
   Http.body r = Http.Rejected "Texts must be at least 10 characters long").
Proof.
  intros Hv Hj H1 H2. unfold check_plagiarism. rewrite Hv, Hj.
  destruct (Http.falsy data) eqn:Hd; simpl.
  { split; [split; auto|auto]. }
  rewrite H1, H2.
  destruct (PyStr.is_empty text1 || PyStr.is_empty text2) eqn:He; simpl.
  { split; [|auto]. split; [intros _|reflexivity]. right.
    apply orb_true_iff in He as [He|He];
      [left; destruct text1|right; destruct text2];
      try discriminate; simpl; lia. }
  destruct ((PyStr.len text1 <? 10)%nat || (PyStr.len text2 <? 10)%nat) eqn:Hl;
    simpl.
  - split; [|auto]. split; [intros _|reflexivity]. right.
    apply orb_true_iff in Hl as [Hl|Hl]; apply Nat.ltb_lt in Hl; auto.
  - apply orb_false_iff in Hl as [Hl1 Hl2].
    apply Nat.ltb_ge in Hl1, Hl2.
    split; [|discriminate]. split; [discriminate|].
    intros [H|[H|H]]; [discriminate|lia|lia].
Qed.

Lemma check_plagiarism_validation_witness :
  let r := check_plagiarism None Nltk.plain_sent_tokenize
             {| Http.verb_of := Http.POST;
                Http.get_json :=
                  Ok (Http.JObject [("text1", Http.JString "Hi");
                                    ("text2", Http.JString "Hello")]) |} in
  (Http.status r = 400%nat <->
   Http.falsy (Http.JObject [("text1", Http.JString "Hi");
                             ("text2", Http.JString "Hello")]) = true \/
   (PyStr.len "Hi" < 10)%nat \/ (PyStr.len "Hello" < 10)%nat)
  /\
  (Http.status r = 400%nat ->
   Http.body r = Http.Rejected "No JSON data provided" \/
   Http.body r = Http.Rejected "Both text1 and text2 are required" \/
   Http.body r = Http.Rejected "Texts must be at least 10 characters long").
Proof.
  apply (check_plagiarism_validation None Nltk.plain_sent_tokenize
           {| Http.verb_of := Http.POST;
              Http.get_json :=
                Ok (Http.JObject [("text1", Http.JString "Hi");
                                  ("text2", Http.JString "Hello")]) |}
           (Http.JObject [("text1", Http.JString "Hi");
                          ("text2", Http.JString "Hello")])
           "Hi" "Hello"); reflexivity.
Defined.

(** X18. A POST whose body cannot be parsed, or whose body is not empty and
    has one of the two fields present without being a string, is answered
    with 500 and the generic error, whatever the other field is. *)
Theorem check_plagiarism_bad_body (sentence_model : option SentenceModel)
    (sent_tokenize : SentTokenizer) (request : Http.request) :
  Http.verb_of request = Http.POST ->
  (exists e, Http.get_json request = Raise e) \/
  (exists data,
      Http.get_json request = Ok data /\ Http.falsy data = false /\
      (Http.get (Http.fields_of data) "text1" (Http.JString "") = Http.JOther \/
       Http.get (Http.fields_of data) "text2" (Http.JString "") = Http.JOther)) ->
  Http.status (check_plagiarism sentence_model sent_tokenize request) = 500%nat /\
  exists message,
    Http.body (check_plagiarism sentence_model sent_tokenize request) =
    Http.Failed "Internal server error" message.
Proof.
  intros Hv H. unfold check_plagiarism. rewrite Hv.
  destruct H as [[e He]|(data & Hj & Hd & H)].
  - rewrite He. simpl. eauto.
  - rewrite Hj, Hd.
    destruct (Http.get (Http.fields_of data) "text1" (Http.JString ""))
      as [s1|]; [|simpl; eauto].
    destruct H as [H|H]; [discriminate|]. rewrite H. simpl. eauto.
Qed.

Lemma check_plagiarism_bad_body_witness :
  Http.status
    (check_plagiarism None Nltk.plain_sent_tokenize
       {| Http.verb_of := Http.POST;
          Http.get_json :=
            Ok (Http.JObject [("text1", Http.JString "Hi");
                              ("text2", Http.JOther)]) |}) = 500%nat /\
  exists message,
    Http.body
      (check_plagiarism None Nltk.plain_sent_tokenize
         {| Http.verb_of := Http.POST;
            Http.get_json :=
              Ok (Http.JObject [("text1", Http.JString "Hi");
                                ("text2", Http.JOther)]) |}) =
    Http.Failed "Internal server error" message.
Proof.
  apply (check_plagiarism_bad_body None Nltk.plain_sent_tokenize
           {| Http.verb_of := Http.POST;
              Http.get_json :=
                Ok (Http.JObject [("text1", Http.JString "Hi");
                                  ("text2", Http.JOther)]) |}).
  - reflexivity.
  - right. eexists. repeat split. right. reflexivity.
Defined.

(** X19. In every successful answer of the endpoint the summary agrees with
    the three results: the overall similarity is the percentage of Tier 1 and
    lies between 0 and 100, the two counts are the lengths of the lists of
    Tier 2 and of Tier 3, and both text lengths are at least 10. *)
Theorem check_plagiarism_summary (sentence_model : option SentenceModel)
    (sent_tokenize : SentTokenizer) (request : Http.request)
    (level1 : Level1.result) (level2 : Level2.result) (level3 : Level3.result)
    (summary : Http.summary) :
  Http.body (check_plagiarism sentence_model sent_tokenize request) =
    Http.Success level1 level2 level3 summary ->
  Http.status (check_plagiarism sentence_model sent_tokenize request) = 200%nat /\
  Http.overall_similarity summary = Level1.similarity_percentage level1 /\
  0 <= Http.overall_similarity summary <= 100 /\
  Http.total_plagiarized_sentences summary =
    length (Level2.plagiarized_sentences level2) /\
  Http.semantic_plagiarized_sentences summary =
    length (Level3.semantic_plagiarized_sentences level3) /\
  (10 <= Http.text1_length summary)%nat /\
  (10 <= Http.text2_length summary)%nat.
Proof.
  unfold check_plagiarism.
  destruct (Http.verb_of request); [|discriminate].
  destruct (Http.get_json request) as [data|e]; [|discriminate].
  destruct (Http.falsy data); [discriminate|].
  destruct (Http.strip _) as [text1|]; [|discriminate].
  destruct (Http.strip _) as [text2|]; [|discriminate].
  destruct (PyStr.is_empty text1 || PyStr.is_empty text2); [discriminate|].
  destruct ((PyStr.len text1 <? 10)%nat || (PyStr.len text2 <? 10)%nat) eqn:Hl;
    [discriminate|].
  apply orb_false_iff in Hl as [Hl1 Hl2]. apply Nat.ltb_ge in Hl1, Hl2.
  cbn [Http.body Http.status]. intros [= <- <- <- <-].
  cbn [Http.overall_similarity Http.total_plagiarized_sentences
       Http.semantic_plagiarized_sentences Http.text1_length Http.text2_length].
  repeat split; auto.
  - unfold level1_tfidf_similarity.
    destruct (tfidf_cosine _ _) as [x|] eqn:E; simpl; [|lra].
    apply (percentage_range x), (tfidf_cosine_range _ _ _ E).
  - unfold level1_tfidf_similarity.
    destruct (tfidf_cosine _ _) as [x|] eqn:E; simpl; [|lra].
    apply (percentage_range x), (tfidf_cosine_range _ _ _ E).
  - apply level2_count_length.
  - apply level3_count_length.
Qed.

Lemma check_plagiarism_summary_witness :
  exists (level1 : Level1.result) (level2 : Level2.result)
         (level3 : Level3.result) (summary : Http.summary),
    Http.body (check_plagiarism None Nltk.plain_sent_tokenize
                 {| Http.verb_of := Http.POST;
                    Http.get_json :=
                      Ok (Http.JObject
                            [("text1", Http.JString "The quick brown fox jumps.");
                             ("text2", Http.JString "A fast auburn fox leaps.")]) |})
    = Http.Success level1 level2 level3 summary /\
    Http.semantic_plagiarized_sentences summary =
      length (Level3.semantic_plagiarized_sentences level3).
Proof.
  eexists _, _, _, _. split; [reflexivity|].
  eapply (check_plagiarism_summary None Nltk.plain_sent_tokenize
            {| Http.verb_of := Http.POST;
               Http.get_json :=
                 Ok (Http.JObject
                       [("text1", Http.JString "The quick brown fox jumps.");
                        ("text2", Http.JString "A fast auburn fox leaps.")]) |}).
  reflexivity.
Defined.

(** ** The normalizer and the stop-word filter *)

Section NormalForm.

Import PyStr.

Lemma Forall_filter_keep {A : Type} (P : A -> Prop) (f : A -> bool)
    (l : list A) :
  Forall P l -> Forall P (filter f l).
Proof.
  intros H. apply Forall_forall. intros x Hx.
  apply filter_In in Hx as [Hx _]. rewrite Forall_forall in H. auto.
Qed.

Lemma filter_twice {A : Type} (f : A -> bool) (l : list A) :
  filter f (filter f l) = filter f l.
Proof.
  induction l as [|x l IH]; [reflexivity|]. simpl.
  destruct (f x) eqn:E; simpl; [rewrite E|]; congruence.
Qed.

(** Words in normal form, joined by single spaces, are left as they are by
    the normalizer. *)
Lemma preprocess_text_join (ws : list string) :
  Forall (is_field is_space) ws ->
  Forall (fun w => all_chars (fun c => negb (is_upper c)) w = true) ws ->
  Forall (fun w => all_chars (fun c => negb (is_punctuation c)) w = true) ws ->
  preprocess_text (join " " ws) = join " " ws.
Proof.
  intros Hf Hu Hp. unfold preprocess_text.
  rewrite lower_fixed by (now apply all_chars_join).
  rewrite remove_punctuation_fixed by (now apply all_chars_join).
  unfold split. now rewrite fields_join.
Qed.

Lemma rstrip_field (w : string) :
  all_chars (fun c => negb (is_space c)) w = true -> rstrip w = w.
Proof.
  induction w as [|c w IH]; [reflexivity|]. simpl.
  intros H. apply andb_true_iff in H as [Hc Hw]. rewrite (IH Hw).
  apply negb_true_iff in Hc. destruct w; [now rewrite Hc|reflexivity].
Qed.

Lemma rstrip_app_fixed (a b : string) :
  b <> EmptyString -> rstrip b = b -> rstrip (a ++ b) = a ++ b.
Proof.
  intros Hne Hb. induction a as [|c a IH]; [exact Hb|].
  simpl. rewrite IH. destruct (a ++ b) eqn:E; [|reflexivity].
  destruct a; simpl in E; [congruence|discriminate].
Qed.

Lemma strip_join (ws : list string) :
  Forall (is_field is_space) ws -> strip (join " " ws) = join " " ws.
Proof.
  intros H. unfold strip.
  assert (Hr : rstrip (join " " ws) = join " " ws /\
               (ws <> [] -> join " " ws <> EmptyString)).
  { induction H as [|w ws [Hne Hw] Hws IH]; [split; [reflexivity|congruence]|].
    destruct IH as [IHr IHn].
    destruct ws as [|w' ws'].
    - simpl. split; [now apply rstrip_field|auto].
    - change (join " " (w :: w' :: ws'))
        with (w ++ String " "%char (join " " (w' :: ws'))).
      split.
      + apply rstrip_app_fixed; [discriminate|].
        change (String " "%char (join " " (w' :: ws')))
          with (String " "%char EmptyString ++ join " " (w' :: ws')).
        apply rstrip_app_fixed; [apply IHn; discriminate|exact IHr].
      + intros _. destruct w; [congruence|discriminate]. }
  destruct H as [|w ws Hw Hws]; [reflexivity|].
  replace (lstrip (join " " (w :: ws))) with (join " " (w :: ws)); [apply Hr|].
  symmetry. destruct Hw as [Hne Hw].
  destruct w as [|c w]; [congruence|].
  simpl in Hw. apply andb_true_iff in Hw as [Hc _].
  apply negb_true_iff in Hc.
  destruct ws as [|w' ws']; simpl; now rewrite Hc.
Qed.

End NormalForm.

(** X20. The output of the normalizer has no upper-case letter and no
    punctuation character, is unchanged by [strip], and is its own words
    joined by single spaces. *)
Theorem preprocess_text_clean (t : string) :
  PyStr.all_chars
    (fun c => negb (PyStr.is_upper c) && negb (PyStr.is_punctuation c))
    (preprocess_text t) = true /\
  PyStr.strip (preprocess_text t) = preprocess_text t /\
  PyStr.join " " (PyStr.split (preprocess_text t)) = preprocess_text t.
Proof.
  destruct (preprocess_text_shape t) as (ws & -> & Hf & Hu & Hp).
  split; [|split].
  - apply all_chars_join; [reflexivity|].
    rewrite Forall_forall in *. intros w Hw.
    specialize (Hu w Hw). specialize (Hp w Hw). clear - Hu Hp.
    induction w as [|c w IH]; [reflexivity|]. simpl in *.
    apply andb_true_iff in Hu as [Hu1 Hu2].
    apply andb_true_iff in Hp as [Hp1 Hp2].
    now rewrite Hu1, Hp1, IH.
  - now apply strip_join.
  - unfold PyStr.split. now rewrite fields_join.
Qed.

(** X21. With its corpus loaded, the stop-word filter keeps exactly the words
    of the text that are not stop words, in their order. *)
Theorem remove_stopwords_words (stop_words : list string) (text : string) :
  PyStr.split (remove_stopwords (Ok stop_words) text) =
  filter (fun word => negb (is_stop_word stop_words word)) (PyStr.split text).
Proof.
  unfold remove_stopwords, PyStr.split.
  rewrite fields_join; [reflexivity|reflexivity|].
  apply Forall_filter_keep, fields_are_fields.
Qed.

(** X22. The stop-word filter is idempotent, with or without its corpus. *)
Theorem remove_stopwords_idempotent (stopwords_english : exc (list string))
    (text : string) :
  remove_stopwords stopwords_english (remove_stopwords stopwords_english text) =
  remove_stopwords stopwords_english text.
Proof.
  destruct stopwords_english as [stop_words|e]; [|reflexivity].
  unfold remove_stopwords at 1.
  change (PyStr.split (remove_stopwords (Ok stop_words) text))
    with (PyStr.fields PyStr.is_space (remove_stopwords (Ok stop_words) text)).
  unfold remove_stopwords at 1. unfold PyStr.split.
  rewrite fields_join;
    [|reflexivity|apply Forall_filter_keep, fields_are_fields].
  now rewrite filter_twice.
Qed.

(** X23. Filtering the stop words out of a normalized text gives a normalized
    text: the normalizer leaves it unchanged. *)
Theorem remove_stopwords_keeps_normal_form
    (stopwords_english : exc (list string)) (t : string) :
  preprocess_text (remove_stopwords stopwords_english (preprocess_text t)) =
  remove_stopwords stopwords_english (preprocess_text t).
Proof.
  destruct stopwords_english as [stop_words|e];
    [|simpl; unfold remove_stopwords].
  - destruct (preprocess_text_shape t) as (ws & -> & Hf & Hu & Hp).
    unfold remove_stopwords, PyStr.split.
    rewrite fields_join by (auto; reflexivity).
    apply preprocess_text_join; now apply Forall_filter_keep.
  - destruct (preprocess_text_shape t) as (ws & -> & Hf & Hu & Hp).
    now apply preprocess_text_join.
Qed.

(** Without the model the health check says so, and Tier 3 answers every
    request with its unavailability result. *)
Lemma health_check_without_model (sent_tokenize : SentTokenizer)
    (text1 text2 : string) (threshold : R) :
  Health.transformer_available (fst (health_check None)) = false /\
  snd (health_check None) = 200%nat /\
  level3_semantic_similarity None sent_tokenize text1 text2 threshold =
  level3_unavailable.
Proof. repeat split. Qed.
